(** * franka_control_ros_broken.py: the Franka arm controller, embedded and checked

    A shallow embedding of [franka/archive/franka_control_ros_broken.py]:
    the class [FrankaControl] (constructor, [get_position],
    [get_joint_positions], [move_relative], [move_absolute]), the three
    command-line tests and the [__main__] dispatch.

    The Python program talks to the outside through three channels, which
    the embedding keeps explicit:
    - the console ([print], [input]): the text written so far and the lines
      still to be read are part of the [world];
    - external executables ([subprocess.Popen], [subprocess.call]): every
      start of a process is recorded in the [world], and what the process
      answers is asked of the [platform];
    - library code that is not spelled out here: the conversions between
      text and floating-point numbers (which Python 2 and Python 3, both
      served by the file, do not write alike) and numpy are fields of the
      [platform] too. A reference platform, with the conversions of
      CPython 3 on ASCII text, is defined further down and used for the
      concrete runs.

    Text is Python 3's: [decode] accepts well-formed UTF-8 only, and a str
    is counted and indexed by characters.

    Exceptions are values of type [exn]; a computation returns an [outcome]
    together with the world it leaves behind, so that what was printed or
    started before an exception is still there afterwards. *)

From Stdlib Require Import ZArith List String Ascii Bool Lia DecimalString.
From Stdlib Require Import Floats.SpecFloat.
Import ListNotations.
Open Scope string_scope.

(** ** Python values and exceptions *)

(** The exceptions that the module, the builtins it calls and the libraries
    it uses can raise. *)
Inductive exn : Type :=
| NameError (name : string)
| AttributeError (attr : string)
| TypeError
| ValueError (msg : string)
| UnicodeDecodeError
| IndexError
| OverflowError
| OSError
| EOFError.

(** [except ValueError] catches [ValueError] and its subclasses;
    [UnicodeDecodeError] is one of them. *)
Definition is_ValueError (e : exn) : bool :=
  match e with
  | ValueError _ | UnicodeDecodeError => true
  | _ => false
  end.

(** A Python float is an IEEE 754 binary64 number. *)
Definition float := spec_float.
Definition prec : Z := 53.
Definition emax : Z := 1024.

Definition float_zero : float := S754_zero false.
Definition float_one : float := S754_finite false 4503599627370496 (-52).
(** 0.05 = 0x1.999999999999ap-5 *)
Definition float_0_05 : float := S754_finite false 7205759403792794 (-57).

(** The Python objects that can reach the methods of the controller. A
    [str] is held as its UTF-8 encoding; [VObj] is a reference to a
    [FrankaControl] instance in the heap. *)
#[warnings="-register-all"]
Inductive value : Type :=
| VNone
| VBool (b : bool)
| VInt (z : Z)
| VFloat (f : float)
| VStr (s : string)
| VList (l : list value)
| VObj (r : nat).

Inductive outcome (A : Type) : Type :=
| Ok (a : A)
| Raise (e : exn).
Arguments Ok {A} a.
Arguments Raise {A} e.

(** ** The world *)

(** Instance attributes of a [FrankaControl] object, as [__init__] sets
    them. *)
Record FrankaControl : Type := mkFrankaControl {
  ip_address : string;
  debug : bool;
  path : string
}.

(** One start of an external process: the argument vector, the working
    directory, and whether its standard output is captured
    ([stdout=subprocess.PIPE]). *)
Record invocation : Type := mkInvocation {
  inv_command : list string;
  inv_cwd : string;
  inv_piped : bool
}.

Record world : Type := mkWorld {
  heap : list FrankaControl;     (* the controller objects created so far *)
  stdout : list string;          (* the pieces of text written, in order *)
  stdin : list string;           (* the lines not yet read *)
  spawned : list invocation      (* the processes started, in order *)
}.

Definition empty_world : world := mkWorld [] [] [] [].

(** A numpy array, known by the object it was built from. *)
Inductive ndarray : Type := ndarray_of (v : value).

(** What lies outside the source file. [host_popen] and [host_call] take
    the number of processes started before, so that an executable may
    answer differently each time; [None] is the failure to start it (a
    missing executable), an [OSError] in Python. *)
Record platform : Type := mkPlatform {
  (* float(s) on a str; None is ValueError *)
  float_of_string : string -> option float;
  (* str(x) on a float *)
  str_of_float : float -> string;
  (* str(x) on a list or an object *)
  str_of_object : value -> string;
  (* np.array(v) *)
  host_np_array : value -> outcome ndarray;
  (* a[i, j] on an array *)
  host_np_getitem2 : ndarray -> Z -> Z -> outcome value;
  (* str(a) on an array *)
  host_np_str : ndarray -> string;
  (* os.path.dirname(os.path.realpath(__file__)) *)
  module_dir : string;
  (* the standard output of subprocess.Popen(command, cwd=cwd, stdout=PIPE) *)
  host_popen : nat -> list string -> string -> option string;
  (* the exit code of subprocess.call(command, cwd=cwd) *)
  host_call : nat -> list string -> string -> option Z
}.

(** ** Computations *)

Definition M (A : Type) : Type := world -> outcome A * world.

Definition ret {A} (a : A) : M A := fun w => (Ok a, w).

Definition raise {A} (e : exn) : M A := fun w => (Raise e, w).

Definition bind {A B} (c : M A) (k : A -> M B) : M B :=
  fun w =>
    match c w with
    | (Ok a, w') => k a w'
    | (Raise e, w') => (Raise e, w')
    end.

Declare Scope py_scope.
Delimit Scope py_scope with py.
Notation "x <- c ;; k" := (bind c (fun x => k))
  (at level 100, c at next level, right associativity) : py_scope.
Notation "c ;; k" := (bind c (fun _ => k))
  (at level 100, right associativity) : py_scope.
Open Scope py_scope.

(** [try: c except E: handler] where [caught] recognises [E]. *)
Definition try_except {A} (c : M A) (caught : exn -> bool) (handler : M A) : M A :=
  fun w =>
    match c w with
    | (Raise e, w') => if caught e then handler w' else (Raise e, w')
    | r => r
    end.

Definition lift {A} (o : outcome A) : M A := fun w => (o, w).

Definition when (b : bool) (c : M unit) : M unit := if b then c else ret tt.

(** [print(a, b, ...)] with every argument already a str: the arguments
    separated by one space, then a newline. *)
Definition newline : string := String "010" "".

Definition write (text : string) (w : world) : world :=
  mkWorld (heap w) (stdout w ++ [text])%list (stdin w) (spawned w).

Definition line (args : list string) : string :=
  String.concat " " args ++ newline.

Definition print (args : list string) : M unit :=
  fun w => (Ok tt, write (line args) w).

(** [input(prompt)] ([raw_input] on Python 2, which the module rebinds to
    [input]): writes the prompt and reads one line. *)
Definition input (prompt : string) : M string :=
  fun w =>
    let w := write prompt w in
    match stdin w with
    | [] => (Raise EOFError, w)
    | l :: rest => (Ok l, mkWorld (heap w) (stdout w) rest (spawned w))
    end.

(** ** Builtins and library calls *)

(** *** Text *)

Module Utf8.

Definition byte_in (lo hi : nat) (c : ascii) : bool :=
  let n := nat_of_ascii c in (lo <=? n)%nat && (n <=? hi)%nat.

(** A continuation byte, 10xxxxxx. *)
Definition cont (c : ascii) : bool := byte_in 128 191 c.

(** Well-formed UTF-8 byte sequences (Unicode, table 3-7): no overlong
    forms, no surrogates, nothing above U+10FFFF. *)
Fixpoint valid (s : string) : bool :=
  match s with
  | EmptyString => true
  | String a s1 =>
      if byte_in 0 127 a then valid s1
      else
        match s1 with
        | EmptyString => false
        | String b s2 =>
            if byte_in 194 223 a then cont b && valid s2
            else
              match s2 with
              | EmptyString => false
              | String c s3 =>
                  if byte_in 224 239 a then
                    (if byte_in 224 224 a then byte_in 160 191 b
                     else if byte_in 237 237 a then byte_in 128 159 b
                     else cont b)
                    && cont c && valid s3
                  else
                    match s3 with
                    | EmptyString => false
                    | String d s4 =>
                        byte_in 240 244 a
                        && (if byte_in 240 240 a then byte_in 144 191 b
                            else if byte_in 244 244 a then byte_in 128 143 b
                            else cont b)
                        && cont c && cont d && valid s4
                    end
              end
        end
  end.

(** The characters (code points) of a text, each as the bytes that
    encode it. *)
Fixpoint chars (s : string) : list string :=
  match s with
  | EmptyString => []
  | String c s' =>
      match chars s' with
      | (String d _ as h) :: t =>
          if cont d then String c h :: t else String c "" :: h :: t
      | t => String c "" :: t
      end
  end.

End Utf8.

(** [out.decode("utf-8")] *)
Definition decode_utf8 (out : string) : M string :=
  if Utf8.valid out then ret out else raise UnicodeDecodeError.

(** [s.split("\n")]: the pieces between line feeds; never empty. *)
Fixpoint split_newline (s : string) : list string :=
  match s with
  | EmptyString => [""]
  | String c s' =>
      if Ascii.eqb c "010" then "" :: split_newline s'
      else
        match split_newline s' with
        | h :: t => String c h :: t
        | [] => [String c ""]
        end
  end.

(** [sep.join(parts)] on a list of str. *)
Definition join (sep : string) (parts : list string) : string :=
  String.concat sep parts.

(** ASCII [s.lower()]. *)
Definition lower_ascii (c : ascii) : ascii :=
  let n := nat_of_ascii c in
  if (65 <=? n)%nat && (n <=? 90)%nat then ascii_of_nat (n + 32) else c.

Fixpoint lower (s : string) : string :=
  match s with
  | EmptyString => EmptyString
  | String c s' => String (lower_ascii c) (lower s')
  end.

(** *** Numbers, sequences *)

(** [str(z)] on an int. *)
Definition decimal (z : Z) : string := NilZero.string_of_int (Z.to_int z).

Section Builtins.

Variable P : platform.

(** [float(x)]. An int is rounded to the nearest float, ties to even,
    and one beyond the range of floats is an [OverflowError]; a str goes
    through the platform's parser; [None], a list and a controller
    object have no conversion. *)
Definition float_ (x : value) : M float :=
  match x with
  | VFloat f => ret f
  | VBool b => ret (if b then float_one else float_zero)
  | VInt z =>
      match binary_normalize prec emax z 0 false with
      | S754_infinity _ => raise OverflowError
      | f => ret f
      end
  | VStr s =>
      match float_of_string P s with
      | Some f => ret f
      | None => raise (ValueError "could not convert string to float")
      end
  | VNone | VList _ | VObj _ => raise TypeError
  end.

(** [str(x)] on a float. *)
Definition str_float (f : float) : string := str_of_float P f.

(** [str(x)], as [print] applies it to an argument. *)
Definition str_ (x : value) : string :=
  match x with
  | VStr s => s
  | VNone => "None"
  | VBool true => "True"
  | VBool false => "False"
  | VInt z => decimal z
  | VFloat f => str_of_float P f
  | VList _ | VObj _ => str_of_object P x
  end.

(** [len(x)] *)
Definition len (x : value) : M Z :=
  match x with
  | VList l => ret (Z.of_nat (List.length l))
  | VStr s => ret (Z.of_nat (List.length (Utf8.chars s)))
  | _ => raise TypeError
  end.

(** [x[i]] for a constant index [i >= 0]. *)
Definition getitem (x : value) (i : nat) : M value :=
  match x with
  | VList l =>
      match nth_error l i with
      | Some v => ret v
      | None => raise IndexError
      end
  | VStr s =>
      match nth_error (Utf8.chars s) i with
      | Some c => ret (VStr c)
      | None => raise IndexError
      end
  | _ => raise TypeError
  end.

(** *** Processes *)

(** A started process whose output is captured. *)
Record process : Type := mkProcess { proc_stdout : string }.

Definition record_spawn (i : invocation) : M nat :=
  fun w => (Ok (List.length (spawned w)),
            mkWorld (heap w) (stdout w) (stdin w) (spawned w ++ [i])%list).

(** [subprocess.Popen(command, cwd=cwd, stdout=subprocess.PIPE)] *)
Definition Popen (command : list string) (cwd : string) : M process :=
  n <- record_spawn (mkInvocation command cwd true) ;;
  match host_popen P n command cwd with
  | Some out => ret (mkProcess out)
  | None => raise OSError
  end.

(** [process.communicate()]: blocks until the process ends; nothing was
    asked of its standard error, so the second component is [None]. *)
Definition communicate (p : process) : M (string * value) :=
  ret (proc_stdout p, VNone).

(** [subprocess.call(command, cwd=cwd)]: the exit code. *)
Definition subprocess_call (command : list string) (cwd : string) : M Z :=
  n <- record_spawn (mkInvocation command cwd false) ;;
  match host_call P n command cwd with
  | Some return_code => ret return_code
  | None => raise OSError
  end.

(** *** numpy *)

Definition np_array (v : value) : M ndarray := lift (host_np_array P v).

Definition np_getitem2 (a : ndarray) (i j : Z) : M value :=
  lift (host_np_getitem2 P a i j).

End Builtins.

(** ** The module *)

(** *** Names bound at module level *)

(** What a global name of the module is bound to. *)
Inductive binding : Type :=
| BFeature                        (* a __future__ feature *)
| BModule (name : string)         (* an imported module *)
| BClass_FrankaControl
| BFunction (name : string)
| BObject (class : string).

(** The global names of the module when one of its functions runs, in the
    order the file binds them: the imports of lines 7 to 12, [input] (the
    rebinding of line 15, Python 2 only), the class, the three test
    functions, and the two names the [__main__] block binds before it
    dispatches. There is no [import ast], and no class [FrankaRos]. *)
Definition module_globals : list (string * binding) :=
  [ ("print_function", BFeature);
    ("subprocess", BModule "subprocess");
    ("os", BModule "os");
    ("sys", BModule "sys");
    ("argparse", BModule "argparse");
    ("np", BModule "numpy");
    ("input", BFunction "raw_input");
    ("FrankaControl", BClass_FrankaControl);
    ("test_motion", BFunction "test_motion");
    ("example_position", BFunction "example_position");
    ("test_position", BFunction "test_position");
    ("parser", BObject "ArgumentParser");
    ("args", BObject "Namespace") ].

Fixpoint lookup (name : string) (table : list (string * binding)) : option binding :=
  match table with
  | [] => None
  | (n, b) :: rest => if String.eqb n name then Some b else lookup name rest
  end.

(** Reading a global name that the function does not assign: the module's
    globals, then the builtins, then [NameError]. The two names read
    through [load_global] below are builtins of no Python version. *)
Definition load_global (name : string) : M binding :=
  match lookup name module_globals with
  | Some b => ret b
  | None => raise (NameError name)
  end.

(** [b.literal_eval(x)] for an object [b] bound at module level: none of
    the five modules, nor the class, the functions, the parser or the
    parsed arguments, has an attribute of that name. *)
Definition call_literal_eval (b : binding) (x : value) : M value :=
  raise (AttributeError "literal_eval").

(** [b(debug=True)] for an object [b] bound at module level. *)
Definition call_kw_debug (b : binding) (debug_kw : value) : M value :=
  match b with
  | BFeature | BModule _ | BObject _ => raise TypeError  (* not callable *)
  | BClass_FrankaControl => raise TypeError  (* __init__ has no parameter debug *)
  | BFunction _ => raise TypeError           (* the functions take no such argument *)
  end.

(** *** class FrankaControl *)

(** The result of a [try] block whose handler returns from the function. *)
Inductive flow (A R : Type) : Type :=
| Continue (a : A)
| Return (r : R).
Arguments Continue {A R} a.
Arguments Return {A R} r.

Definition default {A} (d : A) (o : option A) : A :=
  match o with
  | Some a => a
  | None => d
  end.

(** [self.name]: the attribute of the object at [self] in the heap. *)
Definition getattr_self {A} (self : nat) (name : string) (proj : FrankaControl -> A) : M A :=
  fun w =>
    match nth_error (heap w) self with
    | Some o => (Ok (proj o), w)
    | None => (Raise (AttributeError name), w)
    end.

Definition alloc (o : FrankaControl) : M nat :=
  fun w => (Ok (List.length (heap w)),
            mkWorld (heap w ++ [o])%list (stdout w) (stdin w) (spawned w)).

Section Franka.

Variable P : platform.

(** [FrankaControl(ip=..., debug_flag=...)]; an argument left out is
    [None] here and takes the default of [__init__]. *)
Definition FrankaControl_init (ip : option string) (debug_flag : option bool) : M nat :=
  let ip := default "192.168.0.88" ip in
  let debug_flag := default false debug_flag in
  alloc (mkFrankaControl ip debug_flag (module_dir P)).

(** The loop of [get_joint_positions] over [enumerate(string_list)]. *)
Fixpoint parse_lines (idx : nat) (string_list : list string) (converted_list : list value)
  : M (list value) :=
  match string_list with
  | [] => ret converted_list
  | lit :: rest =>
      let x := lit in
      ast <- load_global "ast" ;;
      x <- call_literal_eval ast (VStr x) ;;
      let converted_list := (converted_list ++ [x])%list in
      if (idx =? 7)%nat then ret converted_list
      else parse_lines (S idx) rest converted_list
  end.

Definition get_joint_positions (self : nat) : M value :=
  let program := "./get_joint_positions" in
  ip <- getattr_self self "ip_address" ip_address ;;
  let command := [program; ip] in
  let command_str := join " " command in
  dbg <- getattr_self self "debug" debug ;;
  when dbg (
    wd <- getattr_self self "path" path ;;
    print ["Working directory: "; wd] ;;
    print ["Program: "; program] ;;
    ip <- getattr_self self "ip_address" ip_address ;;
    print ["IP Address of robot: "; ip] ;;
    print ["Command being called: "; command_str] ;;
    print ["Running FRANKA code..."]) ;;
  cwd <- getattr_self self "path" path ;;
  process <- Popen P command cwd ;;
  out_err <- communicate process ;;
  let out := fst out_err in
  decoded_output <- decode_utf8 out ;;
  let string_list := split_newline decoded_output in
  converted_list <- parse_lines 0 string_list [] ;;
  ret (VList converted_list).

Definition get_position (self : nat) : M value :=
  rows <- get_joint_positions self ;;
  joints <- np_array P rows ;;
  x <- np_getitem2 P joints 7 12 ;;
  y <- np_getitem2 P joints 7 13 ;;
  z <- np_getitem2 P joints 7 14 ;;
  let position := VList [x; y; z] in
  ret position.

(** [float(a), float(b), float(c)], left to right. *)
Definition float3 (a b c : value) : M (float * float * float) :=
  a <- float_ P a ;;
  b <- float_ P b ;;
  c <- float_ P c ;;
  ret (a, b, c).

Definition move_relative (self : nat) (dx dy dz : option value) : M value :=
  let dx := default (VFloat float_zero) dx in
  let dy := default (VFloat float_zero) dy in
  let dz := default (VFloat float_zero) dz in
  r <- try_except
         (t <- float3 dx dy dz ;; ret (Continue t))
         is_ValueError
         (print ["Arguments are invalid: must be floats"] ;; ret (Return VNone)) ;;
  match r with
  | Return v => ret v
  | Continue (dx, dy, dz) =>
      let dx := str_float P dx in
      let dy := str_float P dy in
      let dz := str_float P dz in
      let program := "./franka_move_to_relative" in
      ip <- getattr_self self "ip_address" ip_address ;;
      let command := [program; ip; dx; dy; dz] in
      let command_str := join " " command in
      dbg <- getattr_self self "debug" debug ;;
      when dbg (
        wd <- getattr_self self "path" path ;;
        print ["Working directory: "; wd] ;;
        print ["Program: "; program] ;;
        ip <- getattr_self self "ip_address" ip_address ;;
        print ["IP Address of robot: "; ip] ;;
        print ["dx: "; dx] ;;
        print ["dy: "; dy] ;;
        print ["dz: "; dz] ;;
        print ["Command being called: "; command_str] ;;
        print ["Running FRANKA code..."]) ;;
      cwd <- getattr_self self "path" path ;;
      return_code <- subprocess_call P command cwd ;;
      (if (return_code =? 0)%Z then
         dbg <- getattr_self self "debug" debug ;;
         when dbg (print ["No problems running "; program])
       else
         print ["Python has registered a problem with "; program]) ;;
      ret (VInt return_code)
  end.

Definition move_absolute (self : nat) (coordinates : value) : M value :=
  n <- len coordinates ;;
  if (n >? 3)%Z then
    raise (ValueError "Invalid coordinates. There can only be three dimensions.")
  else
    x <- getitem coordinates 0 ;;
    y <- getitem coordinates 1 ;;
    z <- getitem coordinates 2 ;;
    r <- try_except
           (t <- float3 x y z ;; ret (Continue t))
           is_ValueError
           (print ["Arguments are invalid: must be floats"] ;; ret (Return VNone)) ;;
    match r with
    | Return v => ret v
    | Continue (x, y, z) =>
        let x := str_float P x in
        let y := str_float P y in
        let z := str_float P z in
        let program := "./franka_move_to_absolute" in
        ip <- getattr_self self "ip_address" ip_address ;;
        let command := [program; ip; x; y; z] in
        let command_str := join " " command in
        dbg <- getattr_self self "debug" debug ;;
        when dbg (
          wd <- getattr_self self "path" path ;;
          print ["Working directory: "; wd] ;;
          print ["Program: "; program] ;;
          ip <- getattr_self self "ip_address" ip_address ;;
          print ["IP Address of robot: "; ip] ;;
          print ["Go to x: "; x] ;;
          print ["Go to y: "; y] ;;
          print ["Go to z: "; z] ;;
          print ["Command being called: "; command_str] ;;
          print ["Running FRANKA code..."]) ;;
        cwd <- getattr_self self "path" path ;;
      return_code <- subprocess_call P command cwd ;;
      (if (return_code =? 0)%Z then
         dbg <- getattr_self self "debug" debug ;;
         when dbg (print ["No problems running "; program])
       else
         print ["Python has registered a problem with "; program]) ;;
      ret (VInt return_code)
    end.

(** [obj.name()] for the method names that occur in the module: the
    attribute is looked up on the object first, and a name that the
    class does not define is an [AttributeError]. *)
Definition call_method0 (obj : value) (name : string) : M value :=
  match obj with
  | VObj self =>
      if name =? "get_position" then get_position self
      else if name =? "get_joint_positions" then get_joint_positions self
      else if name =? "move_relative" then move_relative self None None None
      else if name =? "move_absolute" then raise TypeError  (* coordinates is missing *)
      else raise (AttributeError name)
  | _ => raise (AttributeError name)
  end.

(** *** The command-line tests *)

(** The two [while True] loops of [test_motion] read one line in each
    round, and [input] raises [EOFError] once the input is used up: with
    more rounds allowed than there are lines left the bound is never
    reached. *)
Definition reading {A} (loop : nat -> M A) : M A :=
  fun w => loop (S (List.length (stdin w))) w.

Fixpoint ask_testing (rounds : nat) : M bool :=
  match rounds with
  | O => raise EOFError
  | S rounds' =>
      testing <- input "Is this program being tested with the arm? [N/y]: " ;;
      if (testing =? "") || (lower testing =? "n") then ret false
      else if lower testing =? "y" then ret true
      else (print ["Invalid response."] ;; ask_testing rounds')
  end.

Fixpoint ask_direction (rounds : nat) : M string :=
  match rounds with
  | O => raise EOFError
  | S rounds' =>
      direction <- input "Enter 0 to move along x slightly, 1 for backwards: " ;;
      if existsb (String.eqb direction) ["0"; "1"] then ret direction
      else (print ["Invalid input. Must be 0/1."] ;; ask_direction rounds')
  end.

Definition test_motion : M unit :=
  testing <- reading ask_testing ;;
  print ["Testing mode: "; str_ P (VBool testing)] ;;
  direction <- reading ask_direction ;;
  if testing then
    arm <- FrankaControl_init None (Some true) ;;
    if direction =? "0" then
      (move_relative arm (Some (VFloat float_0_05)) None None ;; ret tt)
    else if direction =? "1" then
      (move_relative arm (Some (VFloat (SFopp float_0_05))) None None ;; ret tt)
    else ret tt
  else
    let dx := "0" in
    let dy := "0" in
    let dz := "0" in
    let dx := if direction =? "0" then "0.05"
              else if direction =? "1" then "-0.05" else dx in
    print ["dx: "; dx] ;;
    print ["dy: "; dy] ;;
    print ["dz: "; dz] ;;
    let program := "./franka_move_to_relative" in
    let ip_address := "192.168.0.88" in
    print ["Program being run is: "; program] ;;
    print ["IP Address of robot: "; ip_address] ;;
    let command := [program; ip_address; dx; dy; dz] in
    let command_str := join " " command in
    print ["Command being called: "; command_str].

(** One round of the loop of [example_position]. *)
Definition example_position_round (arm : value) : M unit :=
  rows <- call_method0 arm "get_joint_positions" ;;
  data <- np_array P rows ;;
  print [host_np_str P data] ;;
  print ["End effector position:"] ;;
  x <- np_getitem2 P data 7 12 ;;
  print ["X: "; str_ P x] ;;
  y <- np_getitem2 P data 7 13 ;;
  print ["Y: "; str_ P y] ;;
  z <- np_getitem2 P data 7 14 ;;
  print ["Z: "; str_ P z].

(** [while True: body], followed for [rounds] rounds: [Ok tt] says that
    the loop is still running after them. *)
Fixpoint while_true (rounds : nat) (body : M unit) : M unit :=
  match rounds with
  | O => ret tt
  | S rounds' => body ;; while_true rounds' body
  end.

Definition example_position (rounds : nat) : M unit :=
  FrankaRos <- load_global "FrankaRos" ;;
  arm <- call_kw_debug FrankaRos (VBool true) ;;
  while_true rounds (example_position_round arm).

Definition test_position : M unit :=
  arm <- FrankaControl_init None (Some true) ;;
  pos <- call_method0 (VObj arm) "get_end_effector_pos" ;;
  print ["End effector position:"] ;;
  p0 <- getitem pos 0 ;;
  print ["X: "; str_ P p0] ;;
  p1 <- getitem pos 1 ;;
  print ["Y: "; str_ P p1] ;;
  p2 <- getitem pos 2 ;;
  print ["Z: "; str_ P p2].

(** *** The command line *)

(** The flags as [argparse] hands them over ([store_true]). *)
Record Namespace : Type := mkNamespace {
  motion_test : bool;      (* -m, --motion-test *)
  position_test : bool;    (* -p, --position-test *)
  joint_test : bool        (* -j, --joint-test *)
}.

Definition main (rounds : nat) (args : Namespace) : M unit :=
  if motion_test args then test_motion
  else if position_test args then test_position
  else if joint_test args then example_position rounds
  else print ["Try: franka_control.py --help"].

End Franka.

(** ** A reference platform *)

(** The conversions between floats and ASCII text as CPython 3 makes
    them: [float] on a str reads the grammar of the language reference
    (blanks around it, a sign, inf, infinity or nan in any case, digits
    with single underscores between them, a fraction, an exponent) and
    rounds correctly; [str] on a float gives the shortest decimal that
    reads back as the same float, in the layout of [repr]. Floats are
    taken in canonical form. Digits and blanks outside ASCII are not
    covered. *)
Module Cpython3.

Local Open Scope Z_scope.

(** **** Text to float *)

Definition is_digit (c : ascii) : bool :=
  let n := nat_of_ascii c in (48 <=? n)%nat && (n <=? 57)%nat.

Definition digit_value (c : ascii) : Z := Z.of_nat (nat_of_ascii c) - 48.

(** The ASCII characters that [str.strip] removes. *)
Definition is_space (c : ascii) : bool :=
  let n := nat_of_ascii c in
  ((9 <=? n)%nat && (n <=? 13)%nat) || ((28 <=? n)%nat && (n <=? 32)%nat).

Fixpoint lstrip (s : string) : string :=
  match s with
  | String c s' => if is_space c then lstrip s' else s
  | EmptyString => s
  end.

Fixpoint rstrip (s : string) : string :=
  match s with
  | String c s' =>
      match rstrip s' with
      | EmptyString => if is_space c then EmptyString else String c EmptyString
      | t => String c t
      end
  | EmptyString => s
  end.

Definition strip (s : string) : string := rstrip (lstrip s).

Definition take_sign (s : string) : bool * string :=
  match s with
  | String "-" s' => (true, s')
  | String "+" s' => (false, s')
  | _ => (false, s)
  end.

(** The rest of a [digitpart] after its first digit: digits, each
    possibly preceded by one underscore. [acc] is the number read so
    far and [n] counts its digits. *)
Fixpoint more_digits (acc n : Z) (s : string) : Z * Z * string :=
  match s with
  | String c s' =>
      if is_digit c then more_digits (10 * acc + digit_value c) (n + 1) s'
      else if Ascii.eqb c "_" then
        match s' with
        | String d s'' =>
            if is_digit d then more_digits (10 * acc + digit_value d) (n + 1) s''
            else (acc, n, s)
        | EmptyString => (acc, n, s)
        end
      else (acc, n, s)
  | EmptyString => (acc, n, s)
  end.

(** [digitpart ::= digit (["_"] digit)*], continuing the number [acc]. *)
Definition digitpart (acc : Z) (s : string) : option (Z * Z * string) :=
  match s with
  | String c s' =>
      if is_digit c then Some (more_digits (10 * acc + digit_value c) 1 s') else None
  | EmptyString => None
  end.

(** [number ::= [digitpart] "." digitpart | digitpart ["."]]: the digits
    as one integer, and how many of them follow the point. *)
Definition number (s : string) : option (Z * Z * string) :=
  match digitpart 0 s with
  | Some (i, _, String "." s') =>
      match digitpart i s' with
      | Some (m, nf, rest) => Some (m, nf, rest)
      | None => Some (i, 0, s')
      end
  | Some (i, _, rest) => Some (i, 0, rest)
  | None =>
      match s with
      | String "." s' => digitpart 0 s'
      | _ => None
      end
  end.

(** [exponent ::= ("e" | "E") ["+" | "-"] digitpart] *)
Definition exponent (s : string) : option (Z * string) :=
  match s with
  | String c s' =>
      if Ascii.eqb c "e" || Ascii.eqb c "E" then
        let (neg, s'') := take_sign s' in
        match digitpart 0 s'' with
        | Some (e, _, rest) => Some (if neg then - e else e, rest)
        | None => None
        end
      else None
  | EmptyString => None
  end.

Definition cond_opp (neg : bool) (z : Z) : Z := if neg then - z else z.

(** The float nearest to [m * 10^e] for [m > 0], ties to even. For
    [e < 0] the quotient is cut after at least 64 bits and its last bit
    records whether anything was cut off, which leaves the rounding to
    53 bits unchanged. *)
Definition of_decimal (neg : bool) (m e : Z) : float :=
  if m =? 0 then S754_zero neg
  else if 0 <=? e then binary_normalize prec emax (cond_opp neg (m * 10 ^ e)) 0 false
  else
    let d := 10 ^ (- e) in
    let k := Z.max 0 (Z.log2 d - Z.log2 m + 64) in
    let q := (m * 2 ^ k) / d in
    let sticky := if (m * 2 ^ k) mod d =? 0 then 0 else 1 in
    binary_normalize prec emax (cond_opp neg (2 * q + sticky)) (- k - 1) false.

Definition float_of_string (text : string) : option float :=
  let (neg, s) := take_sign (strip text) in
  let l := lower s in
  if (l =? "inf")%string || (l =? "infinity")%string then Some (S754_infinity neg)
  else if (l =? "nan")%string then Some S754_nan
  else
    match number s with
    | Some (m, nf, EmptyString) => Some (of_decimal neg m (- nf))
    | Some (m, nf, rest) =>
        match exponent rest with
        | Some (e, EmptyString) => Some (of_decimal neg m (e - nf))
        | _ => None
        end
    | None => None
    end.

(** **** Float to text: the shortest decimal that reads back *)

(** [m * 2^e < 10^p], for [m > 0]. *)
Definition below_pow10 (m e p : Z) : bool :=
  m * 2 ^ (Z.max e 0) * 10 ^ (Z.max (- p) 0) <? 2 ^ (Z.max (- e) 0) * 10 ^ (Z.max p 0).

(** The [p] with [10^(p-1) <= m * 2^e < 10^p]: an estimate from the
    binary logarithm, off by at most one, then the exact comparison. *)
Definition decimal_point (m e : Z) : Z :=
  let p0 := ((Z.log2 m + e) * 30103) / 100000 in
  if below_pow10 m e (p0 - 1) then p0 - 1
  else if below_pow10 m e p0 then p0
  else if below_pow10 m e (p0 + 1) then p0 + 1
  else if below_pow10 m e (p0 + 2) then p0 + 2
  else p0 + 3.

(** The [n]-digit decimal [d * 10^(p-n)] that reads back as the float
    [m * 2^e], if there is one; of the two that enclose the float, the
    nearer is tried first. *)
Definition digits_at (m e p n : Z) : option Z :=
  let num := m * 2 ^ (Z.max e 0) * 10 ^ (Z.max (n - p) 0) in
  let den := 2 ^ (Z.max (- e) 0) * 10 ^ (Z.max (p - n) 0) in
  let lo := num / den in
  let r := num mod den in
  let hi := if r =? 0 then lo else lo + 1 in
  let x := S754_finite false (Z.to_pos m) e in
  let reads_back d := SFeqb (of_decimal false d (p - n)) x in
  let (first, second) := if 2 * r <=? den then (lo, hi) else (hi, lo) in
  if reads_back first then Some first
  else if reads_back second then Some second
  else None.

Fixpoint shortest (m e p : Z) (n : Z) (tries : nat) : Z * Z :=
  match tries with
  | O => (m, 0)
  | S tries' =>
      match digits_at m e p n with
      | Some d => (d, n)
      | None => shortest m e p (n + 1) tries'
      end
  end.

(** Trailing zeros carry no information. *)
Fixpoint strip_zeros (d n : Z) (fuel : nat) : Z * Z :=
  match fuel with
  | O => (d, n)
  | S fuel' => if (d mod 10 =? 0) && (1 <? n) then strip_zeros (d / 10) (n - 1) fuel' else (d, n)
  end.

Fixpoint zeros (n : nat) : string :=
  match n with
  | O => ""
  | S n' => String "0" (zeros n')
  end.

(** [repr] of a finite non-zero float with digits [ds] (a string of
    [n] digits) and decimal point after the first [p] of them:
    scientific notation when [p <= -4] or [p > 16]. *)
Definition layout (ds : string) (n p : Z) : string :=
  if (p <=? -4) || (16 <? p) then
    let x := p - 1 in
    let mant := match ds with
                | String c EmptyString => ds
                | String c rest => String c (String "." rest)
                | EmptyString => ds
                end in
    let xs := decimal (Z.abs x) in
    mant ++ "e" ++ (if x <? 0 then "-" else "+")
         ++ (if Z.abs x <? 10 then "0" else "") ++ xs
  else if p <=? 0 then "0." ++ zeros (Z.to_nat (- p)) ++ ds
  else if p <? n then
    substring 0 (Z.to_nat p) ds ++ "." ++ substring (Z.to_nat p) (Z.to_nat (n - p)) ds
  else ds ++ zeros (Z.to_nat (p - n)) ++ ".0".

Definition str_of_float (f : float) : string :=
  match f with
  | S754_nan => "nan"
  | S754_infinity s => if s then "-inf" else "inf"
  | S754_zero s => if s then "-0.0" else "0.0"
  | S754_finite s m e =>
      let p := decimal_point (Zpos m) e in
      let '(d, n) := shortest (Zpos m) e p 1 17 in
      (* a candidate may have been rounded up to 10^n *)
      let '(p, d, n) := if d =? 10 ^ n then (p + 1, 1, 1) else (p, d, n) in
      let '(d, n) := strip_zeros d n 17 in
      (if s then "-" else "") ++ layout (decimal d) n p
  end.


(** Stand-ins for the text of lists and objects, which nothing below
    depends on. *)
Definition str_of_object (x : value) : string :=
  match x with
  | VList _ => "[...]"
  | _ => "<FrankaControl object>"
  end.

End Cpython3.

(** A stand-in for numpy that covers what the module asks of it: an array
    built from a list of rows, each a list of floats of one common length,
    and its indexing by row and column. *)
Module Numpy.

Definition row_of (v : value) : option (list float) :=
  match v with
  | VList cells =>
      fold_right (fun c acc =>
                    match c, acc with
                    | VFloat f, Some fs => Some (f :: fs)
                    | _, _ => None
                    end) (Some []) cells
  | _ => None
  end.

Definition rows_of (v : value) : option (list (list float)) :=
  match v with
  | VList rows =>
      fold_right (fun r acc =>
                    match row_of r, acc with
                    | Some fs, Some rs => Some (fs :: rs)
                    | _, _ => None
                    end) (Some []) rows
  | _ => None
  end.

Definition rectangular (rows : list (list float)) : bool :=
  match rows with
  | [] => true
  | r :: rest => forallb (fun r' => (List.length r' =? List.length r)%nat) rest
  end.

Definition array (v : value) : outcome ndarray :=
  match rows_of v with
  | Some rows => if rectangular rows then Ok (ndarray_of v) else Raise (ValueError "inhomogeneous shape")
  | None => Raise (ValueError "not a table of floats")
  end.

Definition getitem2 (a : ndarray) (i j : Z) : outcome value :=
  let 'ndarray_of v := a in
  match rows_of v with
  | Some rows =>
      match nth_error rows (Z.to_nat i) with
      | Some r =>
          match nth_error r (Z.to_nat j) with
          | Some f => Ok (VFloat f)
          | None => Raise IndexError
          end
      | None => Raise IndexError
      end
  | None => Raise IndexError
  end.

Definition str (a : ndarray) : string := "[[...]]".

End Numpy.

(** The reference platform with mock executables: the query executable
    writes [query_out] and the motion executables exit with [exit_code],
    whenever they are started; [None] is an executable that cannot be
    started. *)
Definition mock_platform (query_out : option string) (exit_code : option Z) : platform :=
  mkPlatform Cpython3.float_of_string Cpython3.str_of_float Cpython3.str_of_object
             Numpy.array Numpy.getitem2 Numpy.str
             "/home/franka/archive"
             (fun _ _ _ => query_out)
             (fun _ _ _ => exit_code).

(** ** Vocabulary of the properties *)

(** Running a computation from a given world: what it returns or raises,
    and the world it leaves. *)
Definition result_of {A} (c : M A) (w : world) : outcome A := fst (c w).
Definition world_after {A} (c : M A) (w : world) : world := snd (c w).

(** A controller made by [FrankaControl()] in an empty world, then one of
    its methods. *)
Definition fresh_controller {A} (P : platform) (method : nat -> M A) : M A :=
  self <- FrankaControl_init P None None ;; method self.

(** The exception that ends a query of the joint positions: the object has
    no attributes, the executable cannot be started, its output is not
    UTF-8, or, in every other case, the name [ast] is not bound. *)
Definition query_failure (P : platform) (self : nat) (w : world) : exn :=
  match nth_error (heap w) self with
  | None => AttributeError "ip_address"
  | Some o =>
      match host_popen P (List.length (spawned w))
                       ["./get_joint_positions"; ip_address o] (path o) with
      | None => OSError
      | Some out => if Utf8.valid out then NameError "ast" else UnicodeDecodeError
      end
  end.

(** The line of the mock query process of the spec, and its output of 8
    such lines. *)
Definition pose_line : string := "[0,0,0,0,0,0,0,0,0,0,0,0,1.0,2.0,3.0,1]".

Fixpoint repeat_line (n : nat) (line : string) : string :=
  match n with
  | O => ""
  | S n' => line ++ newline ++ repeat_line n' line
  end.

Definition eight_pose_lines : string := repeat_line 8 pose_line.

(** A well-formed table of 8 rows by 16 columns. *)
Definition transform_line : string :=
  "[1.0, 0.0, 0.0, 0.0, 0.0, 1.0, 0.0, 0.0, 0.0, 0.0, 1.0, 0.0, 0.3, 0.0, 0.5, 1.0]".

Definition well_formed_table : string := repeat_line 8 transform_line.

(** An output of two lines, the second of which is no list. *)
Definition short_output : string :=
  "[1.0, 2.0]" ++ newline ++ "not a list" ++ newline.

(** One byte that is not UTF-8. *)
Definition not_utf8 : string := String "255" "".

(** What [move_relative] and [move_absolute] print before they start
    the executable when the debug flag is set; [names] are the three
    labels of the coordinates. *)
Definition debug_lines (o : FrankaControl) (program : string) (names : list string)
           (command : list string) : list string :=
  if debug o then
    [line ["Working directory: "; path o];
     line ["Program: "; program];
     line ["IP Address of robot: "; ip_address o]]
    ++ map (fun '(name, text) => line [name; text])
           (combine names (skipn 2 command))
    ++ [line ["Command being called: "; join " " command];
        line ["Running FRANKA code..."]]
  else [].

(** What they print once the executable has ended with [return_code]. *)
Definition exit_lines (o : FrankaControl) (program : string) (return_code : Z) : list string :=
  if (return_code =? 0)%Z then
    if debug o then [line ["No problems running "; program]] else []
  else [line ["Python has registered a problem with "; program]].

(** The command line of a motion executable. *)
Definition motion_command (P : platform) (program : string) (o : FrankaControl)
           (t : float * float * float) : list string :=
  let '(a, b, c) := t in
  [program; ip_address o; str_of_float P a; str_of_float P b; str_of_float P c].

Definition invalid_message : string := line ["Arguments are invalid: must be floats"].

Definition too_many_coordinates : exn :=
  ValueError "Invalid coordinates. There can only be three dimensions.".

(** *** For the properties beyond the claims *)

(** The process a motion method starts for the floats [t]. *)
Definition motion_invocation (P : platform) (program : string) (o : FrankaControl)
           (t : float * float * float) : invocation :=
  mkInvocation (motion_command P program o t) (path o) false.

(** What the motion executable, started as the next process of [w],
    answers: its exit code, or nothing when it cannot be started. *)
Definition motion_answer (P : platform) (program : string) (o : FrankaControl)
           (t : float * float * float) (w : world) : option Z :=
  host_call P (List.length (spawned w)) (motion_command P program o t) (path o).

(** The world a motion method leaves once it has got as far as starting
    its executable. *)
Definition motion_world (P : platform) (program : string) (names : list string)
           (o : FrankaControl) (t : float * float * float) (w : world) : world :=
  mkWorld (heap w)
          (stdout w
           ++ debug_lines o program names (motion_command P program o t)
           ++ match motion_answer P program o t w with
              | Some return_code => exit_lines o program return_code
              | None => []
              end)
          (stdin w)
          (spawned w ++ [motion_invocation P program o t]).

(** What [get_joint_positions] prints before it starts the executable
    when the debug flag is set. *)
Definition query_debug_lines (o : FrankaControl) : list string :=
  if debug o then
    [line ["Working directory: "; path o];
     line ["Program: "; "./get_joint_positions"];
     line ["IP Address of robot: "; ip_address o];
     line ["Command being called: "; join " " ["./get_joint_positions"; ip_address o]];
     line ["Running FRANKA code..."]]
  else [].

Definition query_invocation (o : FrankaControl) : invocation :=
  mkInvocation ["./get_joint_positions"; ip_address o] (path o) true.

(** How the first question of [test_motion] reads an answer: [None] is
    an answer it does not take. *)
Definition testing_answer (s : string) : option bool :=
  if (s =? "") || (lower s =? "n") then Some false
  else if lower s =? "y" then Some true
  else None.

(** The answers its second question takes. *)
Definition direction_answer (s : string) : bool :=
  (s =? "0") || (s =? "1").

Definition testing_prompt : string :=
  "Is this program being tested with the arm? [N/y]: ".

Definition direction_prompt : string :=
  "Enter 0 to move along x slightly, 1 for backwards: ".

(** What a question writes while it is answered: the prompt and the
    complaint for every answer it does not take, then the prompt that
    gets the answer, or finds the input at its end. *)
Definition asking (prompt complaint : string) (refused : list string) : list string :=
  flat_map (fun _ => [prompt; line [complaint]]) refused ++ [prompt].

(** The text [test_motion] gives the delta along x for a direction. *)
Definition dry_dx (direction : string) : string :=
  if direction =? "0" then "0.05" else "-0.05".

(** What the dry run of [test_motion] prints after the two questions. *)
Definition dry_run_lines (direction : string) : list string :=
  [line ["dx: "; dry_dx direction];
   line ["dy: "; "0"];
   line ["dz: "; "0"];
   line ["Program being run is: "; "./franka_move_to_relative"];
   line ["IP Address of robot: "; "192.168.0.88"];
   line ["Command being called: ";
         join " " ["./franka_move_to_relative"; "192.168.0.88"; dry_dx direction; "0"; "0"]]].

(** The floats the live run of [test_motion] moves by. *)
Definition live_delta (direction : string) : float * float * float :=
  (if direction =? "0" then float_0_05 else SFopp float_0_05, float_zero, float_zero).

(** The controller [test_motion] and [test_position] make. *)
Definition test_controller (P : platform) : FrankaControl :=
  mkFrankaControl "192.168.0.88" true (module_dir P).

(** The values [len] does not take. *)
Definition has_no_len (v : value) : bool :=
  match v with
  | VList _ | VStr _ => false
  | _ => true
  end.

(** * Properties *)

(** ** The query of the joint positions *)

Lemma split_newline_nonempty (s : string) :
  exists l ls, split_newline s = l :: ls.
Proof.
  induction s as [|c s IH]; simpl.
  - eauto.
  - destruct (Ascii.eqb c "010"); [eauto|].
    destruct IH as (l & ls & ->). eauto.
Qed.

(** The first round of the loop already fails: [ast] is looked up before
    anything is evaluated. *)
Lemma parse_lines_unbound (idx : nat) (lit : string) (rest : list string)
      (converted_list : list value) (w : world) :
  parse_lines idx (lit :: rest) converted_list w = (Raise (NameError "ast"), w).
Proof. reflexivity. Qed.

Lemma parse_split_unbound (s : string) (w : world) :
  parse_lines 0 (split_newline s) [] w = (Raise (NameError "ast"), w).
Proof.
  destruct (split_newline_nonempty s) as (l & ls & ->).
  apply parse_lines_unbound.
Qed.

(** One step of evaluation after another, with the object at [self] known. *)
Ltac run_with Ho :=
  repeat (progress (cbn -[Utf8.valid split_newline parse_lines String.concat append];
                    rewrite ?Ho)).

Lemma get_joint_positions_fails (P : platform) (self : nat) (w : world) :
  result_of (get_joint_positions P self) w = Raise (query_failure P self w).
Proof.
  unfold result_of, query_failure, get_joint_positions, getattr_self, bind.
  destruct (nth_error (heap w) self) as [[ip dbg wd]|] eqn:Ho; [|reflexivity].
  destruct dbg; run_with Ho;
    (destruct (host_popen P _ _ _) as [out|]; [|reflexivity]);
    run_with Ho; unfold decode_utf8;
    (destruct (Utf8.valid out); [|reflexivity]);
    unfold ret; rewrite parse_split_unbound; reflexivity.
Qed.

Lemma bind_raises {A B} (c : M A) (k : A -> M B) (w : world) (e : exn) :
  result_of c w = Raise e -> result_of (bind c k) w = Raise e.
Proof.
  unfold result_of, bind. destruct (c w) as [[a|e'] w']; simpl; congruence.
Qed.

(** C4, as amended. Whatever the subprocess writes, neither
    [get_joint_positions] nor [get_position] returns a value: both end
    with the exception [query_failure], which is the [NameError] for the
    name [ast] whenever the executable was started and its output is valid
    UTF-8 (an output that is not raises [UnicodeDecodeError] before the
    name is reached, an executable that cannot be started [OSError]). *)
Theorem query_never_returns (P : platform) (self : nat) (w : world) :
  result_of (get_joint_positions P self) w = Raise (query_failure P self w)
  /\ result_of (get_position P self) w = Raise (query_failure P self w)
  /\ (forall o out,
         nth_error (heap w) self = Some o ->
         host_popen P (List.length (spawned w))
                    ["./get_joint_positions"; ip_address o] (path o) = Some out ->
         Utf8.valid out = true ->
         query_failure P self w = NameError "ast").
Proof.
  split; [apply get_joint_positions_fails|split].
  - unfold get_position. apply bind_raises, get_joint_positions_fails.
  - intros o out Ho Hout Hvalid. unfold query_failure.
    rewrite Ho, Hout, Hvalid. reflexivity.
Qed.

(** The world in which one controller has been made with the defaults. *)
Definition one_controller (P : platform) : world :=
  world_after (FrankaControl_init P None None) empty_world.

(** C4 at the mock of the spec: the output is eight well-formed lines, and
    the query ends with the [NameError]. *)
Lemma query_never_returns_witness :
  result_of (get_joint_positions (mock_platform (Some eight_pose_lines) None) 0)
            (one_controller (mock_platform (Some eight_pose_lines) None))
  = Raise (NameError "ast").
Proof.
  pose proof (query_never_returns (mock_platform (Some eight_pose_lines) None) 0
                (one_controller (mock_platform (Some eight_pose_lines) None)))
    as (Hq & _ & Hname).
  rewrite Hq. apply f_equal.
  apply (Hname (mkFrankaControl "192.168.0.88" false "/home/franka/archive")
               eight_pose_lines); reflexivity.
Defined.

(** C4 as stated fails: an output that is not UTF-8 ends the query with
    [UnicodeDecodeError], not with the [NameError]. *)
Lemma query_of_undecodable_output :
  result_of (fresh_controller (mock_platform (Some not_utf8) None)
               (get_joint_positions (mock_platform (Some not_utf8) None)))
            empty_world
  = Raise UnicodeDecodeError.
Proof. reflexivity. Qed.

(** C1 at a failing input: an output of two lines, the second malformed.
    The query ends with the [NameError] for [ast], the exception that ends
    it on a well-formed output too; no line has been parsed. *)
Theorem short_output_name_error :
  result_of (fresh_controller (mock_platform (Some short_output) None)
               (get_joint_positions (mock_platform (Some short_output) None)))
            empty_world
  = Raise (NameError "ast").
Proof. reflexivity. Qed.

(** C2 at a failing input: a well-formed table of 8 rows by 16 columns.
    Neither method returns a value that could be compared: both raise the
    [NameError] for [ast]. *)
Theorem well_formed_table_name_error :
  result_of (fresh_controller (mock_platform (Some well_formed_table) None)
               (get_joint_positions (mock_platform (Some well_formed_table) None)))
            empty_world
  = Raise (NameError "ast")
  /\ result_of (fresh_controller (mock_platform (Some well_formed_table) None)
                  (get_position (mock_platform (Some well_formed_table) None)))
               empty_world
     = Raise (NameError "ast").
Proof. split; reflexivity. Qed.

(** C3 at the failing input, the mock of the spec: eight lines
    [[0,0,0,0,0,0,0,0,0,0,0,0,1.0,2.0,3.0,1]]. [get_position] raises the
    [NameError] for [ast] and returns no pose. *)
Theorem eight_pose_lines_name_error :
  result_of (fresh_controller (mock_platform (Some eight_pose_lines) None)
               (get_position (mock_platform (Some eight_pose_lines) None)))
            empty_world
  = Raise (NameError "ast").
Proof. reflexivity. Qed.

(** ** The stored configuration *)

(** A computation that leaves every controller object as it found it. *)
Definition keeps_heap {A} (c : M A) : Prop :=
  forall w, heap (world_after c w) = heap w.

Section KeepsHeap.

Context {A B : Type}.

Lemma keeps_heap_ret (a : A) : keeps_heap (ret a).
Proof. intro w. reflexivity. Qed.

Lemma keeps_heap_raise (e : exn) : keeps_heap (@raise A e).
Proof. intro w. reflexivity. Qed.

Lemma keeps_heap_lift (o : outcome A) : keeps_heap (lift o).
Proof. intro w. reflexivity. Qed.

Lemma keeps_heap_bind (c : M A) (k : A -> M B) :
  keeps_heap c -> (forall a, keeps_heap (k a)) -> keeps_heap (bind c k).
Proof.
  intros Hc Hk w. unfold world_after, bind.
  specialize (Hc w). unfold world_after in Hc.
  destruct (c w) as [[a|e] w']; simpl in *.
  - rewrite <- Hc. apply Hk.
  - exact Hc.
Qed.

Lemma keeps_heap_try_except (c : M A) (caught : exn -> bool) (handler : M A) :
  keeps_heap c -> keeps_heap handler -> keeps_heap (try_except c caught handler).
Proof.
  intros Hc Hh w. unfold world_after, try_except.
  specialize (Hc w). unfold world_after in Hc.
  destruct (c w) as [[a|e] w']; simpl in *; [exact Hc|].
  destruct (caught e); simpl; [|exact Hc].
  rewrite <- Hc. apply Hh.
Qed.

Lemma keeps_heap_getattr_self (self : nat) (name : string) (proj : FrankaControl -> A) :
  keeps_heap (getattr_self self name proj).
Proof.
  intro w. unfold world_after, getattr_self.
  destruct (nth_error (heap w) self); reflexivity.
Qed.

End KeepsHeap.

Lemma keeps_heap_print (args : list string) : keeps_heap (print args).
Proof. intro w. reflexivity. Qed.

Lemma keeps_heap_when (b : bool) (c : M unit) : keeps_heap c -> keeps_heap (when b c).
Proof. intro Hc. destruct b; [exact Hc|apply keeps_heap_ret]. Qed.

Lemma keeps_heap_record_spawn (i : invocation) : keeps_heap (record_spawn i).
Proof. intro w. reflexivity. Qed.

Lemma keeps_heap_float_ (P : platform) (x : value) : keeps_heap (float_ P x).
Proof.
  intro w. destruct x as [| b | z | f | s | l | r]; try reflexivity.
  - simpl. destruct (binary_normalize prec emax z 0 false); reflexivity.
  - simpl. destruct (float_of_string P s); reflexivity.
Qed.

Lemma keeps_heap_len (x : value) : keeps_heap (len x).
Proof. intro w. destruct x; reflexivity. Qed.

Lemma keeps_heap_getitem (x : value) (i : nat) : keeps_heap (getitem x i).
Proof.
  intro w. destruct x as [| b | z | f | s | l | r]; try reflexivity; simpl.
  - destruct (nth_error (Utf8.chars s) i); reflexivity.
  - destruct (nth_error l i); reflexivity.
Qed.

Lemma keeps_heap_decode_utf8 (out : string) : keeps_heap (decode_utf8 out).
Proof. intro w. unfold decode_utf8. destruct (Utf8.valid out); reflexivity. Qed.

Lemma keeps_heap_load_global (name : string) : keeps_heap (load_global name).
Proof. intro w. unfold load_global. destruct (lookup name module_globals); reflexivity. Qed.

Create HintDb heap.

#[local] Hint Resolve keeps_heap_ret keeps_heap_raise keeps_heap_lift
  keeps_heap_getattr_self keeps_heap_print keeps_heap_when keeps_heap_record_spawn
  keeps_heap_float_ keeps_heap_len keeps_heap_getitem keeps_heap_decode_utf8
  keeps_heap_load_global : heap.

(** Takes a computation apart along its binds, handlers and case
    distinctions, and closes the leaves with the lemmas above. *)
Ltac keeps :=
  repeat first
    [ progress auto with heap
    | apply keeps_heap_bind; [|intro]
    | apply keeps_heap_try_except
    | apply keeps_heap_when
    | match goal with
      | |- keeps_heap (match ?x with _ => _ end) => destruct x
      | |- keeps_heap (let _ := _ in _) => cbv zeta
      end ].

Lemma keeps_heap_Popen (P : platform) (command : list string) (cwd : string) :
  keeps_heap (Popen P command cwd).
Proof. unfold Popen. keeps. Qed.

Lemma keeps_heap_subprocess_call (P : platform) (command : list string) (cwd : string) :
  keeps_heap (subprocess_call P command cwd).
Proof. unfold subprocess_call. keeps. Qed.

Lemma keeps_heap_parse_lines (string_list : list string) :
  forall idx converted_list, keeps_heap (parse_lines idx string_list converted_list).
Proof.
  induction string_list as [|lit rest IH]; intros idx converted_list; simpl.
  - keeps.
  - unfold call_literal_eval. keeps.
Qed.

#[local] Hint Resolve keeps_heap_Popen keeps_heap_subprocess_call
  keeps_heap_parse_lines : heap.

Lemma keeps_heap_get_joint_positions (P : platform) (self : nat) :
  keeps_heap (get_joint_positions P self).
Proof. unfold get_joint_positions, communicate. keeps. Qed.

Lemma keeps_heap_get_position (P : platform) (self : nat) :
  keeps_heap (get_position P self).
Proof.
  unfold get_position, np_array, np_getitem2.
  pose proof (keeps_heap_get_joint_positions P self). keeps.
Qed.

Lemma keeps_heap_float3 (P : platform) (a b c : value) : keeps_heap (float3 P a b c).
Proof. unfold float3. keeps. Qed.

Lemma keeps_heap_move_relative (P : platform) (self : nat) (dx dy dz : option value) :
  keeps_heap (move_relative P self dx dy dz).
Proof.
  unfold move_relative. pose proof (keeps_heap_float3 P). keeps.
Qed.

Lemma keeps_heap_move_absolute (P : platform) (self : nat) (coordinates : value) :
  keeps_heap (move_absolute P self coordinates).
Proof.
  unfold move_absolute. pose proof (keeps_heap_float3 P). keeps.
Qed.

(** C9. None of the four operations changes the attributes of a
    controller: the heap after the operation, whether it returned or
    raised, is the heap before it, and so are the IP address, the debug
    flag and the path of the object at [self]. *)
Theorem configuration_unchanged (P : platform) (self : nat)
        (dx dy dz : option value) (coordinates : value) (w : world) :
  heap (world_after (get_joint_positions P self) w) = heap w
  /\ heap (world_after (get_position P self) w) = heap w
  /\ heap (world_after (move_relative P self dx dy dz) w) = heap w
  /\ heap (world_after (move_absolute P self coordinates) w) = heap w.
Proof.
  repeat split.
  - apply keeps_heap_get_joint_positions.
  - apply keeps_heap_get_position.
  - apply keeps_heap_move_relative.
  - apply keeps_heap_move_absolute.
Qed.

(** ** The motion methods *)

(** [float] reads nothing of the world and leaves it alone. *)
Lemma float__run (P : platform) (x : value) (w : world) :
  float_ P x w = (result_of (float_ P x) w, w).
Proof.
  unfold result_of. destruct x as [| b | z | f | s | l | r]; try reflexivity; simpl.
  - destruct (binary_normalize prec emax z 0 false); reflexivity.
  - destruct (float_of_string P s); reflexivity.
Qed.

Lemma float3_run (P : platform) (a b c : value) (w : world) :
  float3 P a b c w = (result_of (float3 P a b c) w, w).
Proof.
  unfold result_of, float3, bind.
  rewrite (float__run P a w). destruct (result_of (float_ P a) w); [|reflexivity].
  rewrite (float__run P b w). destruct (result_of (float_ P b) w); [|reflexivity].
  rewrite (float__run P c w). destruct (result_of (float_ P c) w); reflexivity.
Qed.

Ltac run_motion Ho :=
  repeat (progress (cbn -[line join String.concat append Z.eqb]; rewrite ?Ho)).

(** C7. When the three arguments convert to floats and the executable
    ends with [return_code], [move_relative] returns that code, zero or
    not, and raises nothing; besides the report of the debug flag it
    prints one line on a code other than zero. *)
Theorem move_relative_returns_exit_code (P : platform) (self : nat) (o : FrankaControl)
        (dx dy dz : option value) (t : float * float * float) (return_code : Z) (w : world) :
  nth_error (heap w) self = Some o ->
  result_of (float3 P (default (VFloat float_zero) dx) (default (VFloat float_zero) dy)
                    (default (VFloat float_zero) dz)) w = Ok t ->
  host_call P (List.length (spawned w))
            (motion_command P "./franka_move_to_relative" o t) (path o) = Some return_code ->
  result_of (move_relative P self dx dy dz) w = Ok (VInt return_code)
  /\ stdout (world_after (move_relative P self dx dy dz) w)
     = (stdout w
        ++ debug_lines o "./franka_move_to_relative" ["dx: "; "dy: "; "dz: "]
                       (motion_command P "./franka_move_to_relative" o t)
        ++ exit_lines o "./franka_move_to_relative" return_code)%list.
Proof.
  intros Ho Hf Hcall.
  destruct t as [[fx fy] fz]. destruct o as [ip dbg wd].
  unfold result_of, world_after, move_relative, try_except, bind.
  rewrite float3_run, Hf.
  unfold motion_command in Hcall. simpl in Hcall.
  unfold debug_lines, exit_lines, motion_command, str_float, subprocess_call,
    record_spawn, getattr_self, bind.
  destruct dbg; run_motion Ho; rewrite Hcall; run_motion Ho;
    destruct (return_code =? 0)%Z; run_motion Ho;
    (split; [reflexivity|]); rewrite ?app_nil_r, <- ?app_assoc; reflexivity.
Qed.

(** C7 at the mock of the spec: [move_relative(dx=0.05)] with a motion
    executable that exits with code 1 returns 1 and prints the line about
    the problem. *)
Lemma move_relative_returns_exit_code_witness :
  result_of (move_relative (mock_platform None (Some 1%Z)) 0
                           (Some (VFloat float_0_05)) None None)
            (one_controller (mock_platform None (Some 1%Z)))
  = Ok (VInt 1)
  /\ stdout (world_after (move_relative (mock_platform None (Some 1%Z)) 0
                                        (Some (VFloat float_0_05)) None None)
                         (one_controller (mock_platform None (Some 1%Z))))
     = [line ["Python has registered a problem with "; "./franka_move_to_relative"]].
Proof.
  exact (move_relative_returns_exit_code
           (mock_platform None (Some 1%Z)) 0
           (mkFrankaControl "192.168.0.88" false "/home/franka/archive")
           (Some (VFloat float_0_05)) None None
           (float_0_05, float_zero, float_zero) 1
           (one_controller (mock_platform None (Some 1%Z)))
           eq_refl eq_refl eq_refl).
Defined.

(** The same call with a motion executable that exits with code 0
    returns 0 and prints nothing. *)
Example move_relative_exit_code_zero :
  move_relative (mock_platform None (Some 0%Z)) 0 (Some (VFloat float_0_05)) None None
                (one_controller (mock_platform None (Some 0%Z)))
  = (Ok (VInt 0),
     mkWorld [mkFrankaControl "192.168.0.88" false "/home/franka/archive"] [] []
             [mkInvocation ["./franka_move_to_relative"; "192.168.0.88"; "0.05"; "0.0"; "0.0"]
                           "/home/franka/archive" false]).
Proof. reflexivity. Qed.

(** C10. [FrankaControl()] stores the address 192.168.0.88 and a debug
    flag that is off, and [move_relative()] on that controller starts the
    relative-motion executable with the address and three times the text
    of the float zero, which is 0.0 on a platform that writes zero so. *)
Theorem defaults_of_controller_and_move (P : platform) (w : world) :
  str_of_float P float_zero = "0.0" ->
  result_of (FrankaControl_init P None None) w = Ok (List.length (heap w))
  /\ nth_error (heap (world_after (FrankaControl_init P None None) w)) (List.length (heap w))
     = Some (mkFrankaControl "192.168.0.88" false (module_dir P))
  /\ spawned (world_after (move_relative P (List.length (heap w)) None None None)
                          (world_after (FrankaControl_init P None None) w))
     = (spawned w
        ++ [mkInvocation ["./franka_move_to_relative"; "192.168.0.88"; "0.0"; "0.0"; "0.0"]
                         (module_dir P) false])%list.
Proof.
  intro Hzero.
  assert (Ho : nth_error (heap (world_after (FrankaControl_init P None None) w))
                         (List.length (heap w))
               = Some (mkFrankaControl "192.168.0.88" false (module_dir P))).
  { unfold world_after, FrankaControl_init, alloc. simpl.
    rewrite nth_error_app2, Nat.sub_diag; [reflexivity|apply Nat.le_refl]. }
  split; [reflexivity|]. split; [exact Ho|].
  set (w1 := world_after (FrankaControl_init P None None) w) in *.
  assert (Hs : spawned w1 = spawned w) by reflexivity.
  rewrite <- Hs. clearbody w1.
  unfold world_after, move_relative, try_except, bind.
  rewrite float3_run. unfold result_of at 1. simpl float3.
  unfold str_float, subprocess_call, record_spawn, getattr_self, bind.
  run_motion Ho. rewrite Hzero.
  destruct (host_call P _ _ _) as [return_code|]; run_motion Ho; [|reflexivity].
  destruct (return_code =? 0)%Z; run_motion Ho; reflexivity.
Qed.

(** C10 on the reference platform, which writes the float zero as 0.0. *)
Lemma defaults_of_controller_and_move_witness :
  str_of_float (mock_platform None (Some 0%Z)) float_zero = "0.0"
  /\ nth_error (heap (one_controller (mock_platform None (Some 0%Z)))) 0
     = Some (mkFrankaControl "192.168.0.88" false "/home/franka/archive")
  /\ spawned (world_after (move_relative (mock_platform None (Some 0%Z)) 0 None None None)
                          (one_controller (mock_platform None (Some 0%Z))))
     = [mkInvocation ["./franka_move_to_relative"; "192.168.0.88"; "0.0"; "0.0"; "0.0"]
                     "/home/franka/archive" false].
Proof.
  split; [reflexivity|].
  exact (proj2 (defaults_of_controller_and_move
                  (mock_platform None (Some 0%Z)) empty_world eq_refl)).
Defined.

(** C5, as amended. When [float] rejects one of the arguments, taken in
    the order in which they are converted, neither method starts a
    process. If the rejection is a [ValueError] (a str that is no number)
    the method prints its message and returns [None], which is no exit
    code; any other rejection ([TypeError] for [None], a list or an
    object, [OverflowError] for an int beyond the floats) is raised to the
    caller, with nothing printed. [move_absolute] is called with a list of
    exactly three coordinates. *)
Theorem invalid_arguments_start_nothing (P : platform) (self : nat)
        (a b c : value) (e : exn) (w : world) :
  result_of (float3 P a b c) w = Raise e ->
  spawned (world_after (move_relative P self (Some a) (Some b) (Some c)) w) = spawned w
  /\ spawned (world_after (move_absolute P self (VList [a; b; c])) w) = spawned w
  /\ if is_ValueError e then
       move_relative P self (Some a) (Some b) (Some c) w
       = (Ok VNone, write invalid_message w)
       /\ move_absolute P self (VList [a; b; c]) w
          = (Ok VNone, write invalid_message w)
       /\ (forall return_code : Z, VNone <> VInt return_code)
     else
       move_relative P self (Some a) (Some b) (Some c) w = (Raise e, w)
       /\ move_absolute P self (VList [a; b; c]) w = (Raise e, w).
Proof.
  intro Hf.
  assert (Hrel : move_relative P self (Some a) (Some b) (Some c) w
                 = if is_ValueError e then (Ok VNone, write invalid_message w)
                   else (Raise e, w)).
  { unfold move_relative, try_except, bind. simpl default.
    rewrite float3_run, Hf. destruct (is_ValueError e); reflexivity. }
  assert (Habs : move_absolute P self (VList [a; b; c]) w
                 = if is_ValueError e then (Ok VNone, write invalid_message w)
                   else (Raise e, w)).
  { unfold move_absolute, try_except, bind. simpl.
    rewrite float3_run, Hf. destruct (is_ValueError e); reflexivity. }
  unfold world_after. rewrite Hrel, Habs.
  destruct (is_ValueError e); simpl; repeat split; discriminate.
Qed.

(** C5 at a str that is no number: [move_relative(dx='abc')] and
    [move_absolute(['abc', 0.0, 0.0])] print the message and return
    [None]. *)
Lemma invalid_arguments_start_nothing_witness :
  move_relative (mock_platform None (Some 0%Z)) 0
                (Some (VStr "abc")) (Some (VFloat float_zero)) (Some (VFloat float_zero))
                (one_controller (mock_platform None (Some 0%Z)))
  = (Ok VNone, write invalid_message (one_controller (mock_platform None (Some 0%Z))))
  /\ move_absolute (mock_platform None (Some 0%Z)) 0
                   (VList [VStr "abc"; VFloat float_zero; VFloat float_zero])
                   (one_controller (mock_platform None (Some 0%Z)))
     = (Ok VNone, write invalid_message (one_controller (mock_platform None (Some 0%Z)))).
Proof.
  pose proof (invalid_arguments_start_nothing
                (mock_platform None (Some 0%Z)) 0
                (VStr "abc") (VFloat float_zero) (VFloat float_zero)
                (ValueError "could not convert string to float")
                (one_controller (mock_platform None (Some 0%Z)))
                eq_refl) as (_ & _ & Hrel & Habs & _).
  split; assumption.
Defined.

(** C5 as stated fails: [None] is not coercible, and
    [move_relative(dx=None)] returns no sentinel but raises [TypeError]. *)
Lemma move_relative_none_raises :
  move_relative (mock_platform None (Some 0%Z)) 0 (Some VNone) None None
                (one_controller (mock_platform None (Some 0%Z)))
  = (Raise TypeError, one_controller (mock_platform None (Some 0%Z))).
Proof. reflexivity. Qed.

(** C6, as amended. With a list of coordinates whose length is not 3,
    [move_absolute] raises an exception to its caller and leaves the world
    as it was: nothing is printed and no process is started. The exception
    is the [ValueError] of the length check for more than three
    coordinates, and the [IndexError] of the indexing for fewer. *)
Theorem wrong_number_of_coordinates (P : platform) (self : nat)
        (l : list value) (w : world) :
  List.length l <> 3%nat ->
  move_absolute P self (VList l) w
  = (Raise (if (3 <? List.length l)%nat then too_many_coordinates else IndexError), w).
Proof.
  intro Hlen.
  destruct l as [|a [|b [|c [|d l]]]]; try reflexivity.
  - contradiction Hlen. reflexivity.
  - unfold move_absolute, bind, len, ret.
    assert (Hgt : (Z.of_nat (List.length (a :: b :: c :: d :: l)) >? 3)%Z = true).
    { apply Z.gtb_lt. simpl List.length. lia. }
    rewrite Hgt. reflexivity.
Qed.

(** C6 at a list of two coordinates. *)
Lemma wrong_number_of_coordinates_witness :
  move_absolute (mock_platform None (Some 0%Z)) 0
                (VList [VFloat float_one; VFloat float_zero])
                (one_controller (mock_platform None (Some 0%Z)))
  = (Raise IndexError, one_controller (mock_platform None (Some 0%Z))).
Proof.
  apply (wrong_number_of_coordinates (mock_platform None (Some 0%Z)) 0
           [VFloat float_one; VFloat float_zero]).
  simpl. lia.
Defined.

(** C6 as stated fails: with four coordinates [move_absolute] does not
    return after printing a message; it raises [ValueError] to the caller
    and prints nothing. *)
Lemma move_absolute_four_coordinates_raises :
  move_absolute (mock_platform None (Some 0%Z)) 0
                (VList [VFloat float_one; VFloat float_zero; VFloat float_zero;
                        VFloat float_one])
                (one_controller (mock_platform None (Some 0%Z)))
  = (Raise too_many_coordinates, one_controller (mock_platform None (Some 0%Z))).
Proof. reflexivity. Qed.

(** ** The command line *)

(** C8 at the failing inputs. With the position-test flag the program
    makes a controller and stops at the call of [get_end_effector_pos], a
    method the class does not have: [get_position] is not called, nothing
    is printed and no process is started. With the joint-test flag it
    stops at the name [FrankaRos], which is not bound, before its loop. *)
Theorem position_and_joint_tests_fail (P : platform) (rounds : nat) (w : world) :
  result_of (main P rounds (mkNamespace false true false)) w
  = Raise (AttributeError "get_end_effector_pos")
  /\ stdout (world_after (main P rounds (mkNamespace false true false)) w) = stdout w
  /\ spawned (world_after (main P rounds (mkNamespace false true false)) w) = spawned w
  /\ main P rounds (mkNamespace false false true) w = (Raise (NameError "FrankaRos"), w).
Proof. repeat split. Qed.

(** * Further properties *)

(** ** The motion methods, from the conversion of the arguments on *)

Lemma move_relative_started (P : platform) (self : nat) (o : FrankaControl)
      (dx dy dz : option value) (t : float * float * float) (w : world) :
  nth_error (heap w) self = Some o ->
  result_of (float3 P (default (VFloat float_zero) dx) (default (VFloat float_zero) dy)
                    (default (VFloat float_zero) dz)) w = Ok t ->
  move_relative P self dx dy dz w
  = (match motion_answer P "./franka_move_to_relative" o t w with
     | Some return_code => Ok (VInt return_code)
     | None => Raise OSError
     end,
     motion_world P "./franka_move_to_relative" ["dx: "; "dy: "; "dz: "] o t w).
Proof.
  intros Ho Hf.
  destruct t as [[fx fy] fz]. destruct o as [ip dbg wd].
  unfold move_relative, try_except, bind.
  rewrite float3_run, Hf.
  unfold motion_world, motion_answer, motion_invocation, debug_lines, exit_lines,
    motion_command, str_float, subprocess_call, record_spawn, getattr_self, bind.
  destruct dbg; run_motion Ho;
    (destruct (host_call P _ _ _) as [return_code|]; run_motion Ho;
     [destruct (return_code =? 0)%Z; run_motion Ho|]);
    unfold ret, raise, print, when, write; run_motion Ho;
    rewrite ?app_nil_r, <- ?app_assoc; reflexivity.
Qed.

Lemma move_absolute_started (P : platform) (self : nat) (o : FrankaControl)
      (x y z : value) (t : float * float * float) (w : world) :
  nth_error (heap w) self = Some o ->
  result_of (float3 P x y z) w = Ok t ->
  move_absolute P self (VList [x; y; z]) w
  = (match motion_answer P "./franka_move_to_absolute" o t w with
     | Some return_code => Ok (VInt return_code)
     | None => Raise OSError
     end,
     motion_world P "./franka_move_to_absolute" ["Go to x: "; "Go to y: "; "Go to z: "]
                  o t w).
Proof.
  intros Ho Hf.
  destruct t as [[fx fy] fz]. destruct o as [ip dbg wd].
  unfold move_absolute, try_except, bind. simpl.
  rewrite float3_run, Hf.
  unfold motion_world, motion_answer, motion_invocation, debug_lines, exit_lines,
    motion_command, str_float, subprocess_call, record_spawn, getattr_self, bind.
  destruct dbg; run_motion Ho;
    (destruct (host_call P _ _ _) as [return_code|]; run_motion Ho;
     [destruct (return_code =? 0)%Z; run_motion Ho|]);
    unfold ret, raise, print, when, write; run_motion Ho;
    rewrite ?app_nil_r, <- ?app_assoc; reflexivity.
Qed.

(** X1. With a controller in the heap and three coordinates that [float]
    accepts, [move_absolute] starts the absolute-motion executable once,
    with the address and the texts of the three floats, in the directory
    of the module; it returns the exit code of the executable, zero or
    not, and raises [OSError] when the executable cannot be started. It
    prints the report of the debug flag before, and the line on the exit
    code after. *)
Theorem move_absolute_runs_executable (P : platform) (self : nat) (o : FrankaControl)
        (x y z : value) (t : float * float * float) (w : world) :
  nth_error (heap w) self = Some o ->
  result_of (float3 P x y z) w = Ok t ->
  result_of (move_absolute P self (VList [x; y; z])) w
  = match motion_answer P "./franka_move_to_absolute" o t w with
    | Some return_code => Ok (VInt return_code)
    | None => Raise OSError
    end
  /\ spawned (world_after (move_absolute P self (VList [x; y; z])) w)
     = (spawned w
        ++ [mkInvocation (motion_command P "./franka_move_to_absolute" o t) (path o) false])%list
  /\ stdout (world_after (move_absolute P self (VList [x; y; z])) w)
     = (stdout w
        ++ debug_lines o "./franka_move_to_absolute" ["Go to x: "; "Go to y: "; "Go to z: "]
                       (motion_command P "./franka_move_to_absolute" o t)
        ++ match motion_answer P "./franka_move_to_absolute" o t w with
           | Some return_code => exit_lines o "./franka_move_to_absolute" return_code
           | None => []
           end)%list.
Proof.
  intros Ho Hf. unfold result_of, world_after.
  rewrite (move_absolute_started P self o x y z t w Ho Hf).
  repeat split.
Qed.

(** X1 on the reference platform: the coordinates 1, '2.5' and 0.05 with
    a motion executable that exits with code 3. *)
Lemma move_absolute_runs_executable_witness :
  result_of (move_absolute (mock_platform None (Some 3%Z)) 0
                           (VList [VInt 1; VStr "2.5"; VFloat float_0_05]))
            (one_controller (mock_platform None (Some 3%Z)))
  = Ok (VInt 3)
  /\ spawned (world_after (move_absolute (mock_platform None (Some 3%Z)) 0
                                         (VList [VInt 1; VStr "2.5"; VFloat float_0_05]))
                          (one_controller (mock_platform None (Some 3%Z))))
     = [mkInvocation ["./franka_move_to_absolute"; "192.168.0.88"; "1.0"; "2.5"; "0.05"]
                     "/home/franka/archive" false]
  /\ stdout (world_after (move_absolute (mock_platform None (Some 3%Z)) 0
                                        (VList [VInt 1; VStr "2.5"; VFloat float_0_05]))
                         (one_controller (mock_platform None (Some 3%Z))))
     = [line ["Python has registered a problem with "; "./franka_move_to_absolute"]].
Proof.
  exact (move_absolute_runs_executable
           (mock_platform None (Some 3%Z)) 0
           (mkFrankaControl "192.168.0.88" false "/home/franka/archive")
           (VInt 1) (VStr "2.5") (VFloat float_0_05)
           (float_one, S754_finite false 5629499534213120 (-51), float_0_05)
           (one_controller (mock_platform None (Some 3%Z)))
           eq_refl eq_refl).
Defined.

(** X2. When the relative-motion executable cannot be started,
    [move_relative] raises [OSError] to its caller: the failure is not
    caught and no code is returned. The attempt is on record, and all that
    was printed is the report of the debug flag. *)
Theorem move_relative_cannot_start (P : platform) (self : nat) (o : FrankaControl)
        (dx dy dz : option value) (t : float * float * float) (w : world) :
  nth_error (heap w) self = Some o ->
  result_of (float3 P (default (VFloat float_zero) dx) (default (VFloat float_zero) dy)
                    (default (VFloat float_zero) dz)) w = Ok t ->
  motion_answer P "./franka_move_to_relative" o t w = None ->
  result_of (move_relative P self dx dy dz) w = Raise OSError
  /\ spawned (world_after (move_relative P self dx dy dz) w)
     = (spawned w
        ++ [mkInvocation (motion_command P "./franka_move_to_relative" o t) (path o) false])%list
  /\ stdout (world_after (move_relative P self dx dy dz) w)
     = (stdout w
        ++ debug_lines o "./franka_move_to_relative" ["dx: "; "dy: "; "dz: "]
                       (motion_command P "./franka_move_to_relative" o t))%list.
Proof.
  intros Ho Hf Hnone. unfold result_of, world_after.
  rewrite (move_relative_started P self o dx dy dz t w Ho Hf).
  unfold motion_world. rewrite Hnone. simpl. rewrite app_nil_r.
  repeat split.
Qed.

(** X2 on the reference platform with no motion executable. *)
Lemma move_relative_cannot_start_witness :
  result_of (move_relative (mock_platform None None) 0 (Some (VStr "0.05")) None None)
            (one_controller (mock_platform None None))
  = Raise OSError
  /\ spawned (world_after (move_relative (mock_platform None None) 0
                                         (Some (VStr "0.05")) None None)
                          (one_controller (mock_platform None None)))
     = [mkInvocation ["./franka_move_to_relative"; "192.168.0.88"; "0.05"; "0.0"; "0.0"]
                     "/home/franka/archive" false]
  /\ stdout (world_after (move_relative (mock_platform None None) 0
                                        (Some (VStr "0.05")) None None)
                         (one_controller (mock_platform None None)))
     = [].
Proof.
  exact (move_relative_cannot_start
           (mock_platform None None) 0
           (mkFrankaControl "192.168.0.88" false "/home/franka/archive")
           (Some (VStr "0.05")) None None
           (float_0_05, float_zero, float_zero)
           (one_controller (mock_platform None None))
           eq_refl eq_refl eq_refl).
Defined.

(** Up to the conversion of the coordinates, [move_absolute] either raises
    and leaves the world alone, or goes on as it does with the list of the
    three items it has read. *)
Lemma move_absolute_reads_three (P : platform) (self : nat) (coordinates : value) (w : world) :
  (exists e, move_absolute P self coordinates w = (Raise e, w))
  \/ (exists x y z,
         move_absolute P self coordinates w = move_absolute P self (VList [x; y; z]) w).
Proof.
  destruct coordinates as [| b | n | f | s | l | r];
    try (left; exists TypeError; reflexivity).
  - unfold move_absolute, bind, len, getitem, ret.
    destruct (Utf8.chars s) as [|a [|b [|c [|d cs]]]];
      try (left; exists IndexError; reflexivity).
    + right. exists (VStr a), (VStr b), (VStr c). reflexivity.
    + left. exists too_many_coordinates.
      assert (Hgt : (Z.of_nat (List.length (a :: b :: c :: d :: cs)) >? 3)%Z = true).
      { apply Z.gtb_lt. simpl List.length. lia. }
      rewrite Hgt. reflexivity.
  - destruct l as [|a [|b [|c [|d l]]]];
      try (left; exists IndexError; reflexivity).
    + right. exists a, b, c. reflexivity.
    + left. exists too_many_coordinates.
      unfold move_absolute, bind, len, ret.
      assert (Hgt : (Z.of_nat (List.length (a :: b :: c :: d :: l)) >? 3)%Z = true).
      { apply Z.gtb_lt. simpl List.length. lia. }
      rewrite Hgt. reflexivity.
Qed.

Lemma move_relative_stops_early (P : platform) (self : nat)
      (dx dy dz : option value) (w : world) :
  (forall t, result_of (float3 P (default (VFloat float_zero) dx)
                               (default (VFloat float_zero) dy)
                               (default (VFloat float_zero) dz)) w = Ok t ->
             nth_error (heap w) self = None) ->
  spawned (world_after (move_relative P self dx dy dz) w) = spawned w.
Proof.
  intro Hstop. unfold world_after, move_relative, try_except, bind.
  rewrite float3_run.
  destruct (result_of (float3 P _ _ _) w) as [[[fx fy] fz]|e] eqn:Hf.
  - specialize (Hstop _ eq_refl). unfold getattr_self, bind. run_motion Hstop. reflexivity.
  - destruct (is_ValueError e); reflexivity.
Qed.

Lemma move_absolute_stops_early (P : platform) (self : nat) (x y z : value) (w : world) :
  (forall t, result_of (float3 P x y z) w = Ok t -> nth_error (heap w) self = None) ->
  spawned (world_after (move_absolute P self (VList [x; y; z])) w) = spawned w.
Proof.
  intro Hstop. unfold world_after, move_absolute, try_except, bind. simpl.
  rewrite float3_run.
  destruct (result_of (float3 P _ _ _) w) as [[[fx fy] fz]|e] eqn:Hf.
  - specialize (Hstop _ eq_refl). unfold getattr_self, bind. run_motion Hstop. reflexivity.
  - destruct (is_ValueError e); reflexivity.
Qed.

(** X3. Whatever its arguments, a motion method starts at most one
    process, and none but its own executable: after [move_relative] the
    record of processes is as before or longer by one start of
    [./franka_move_to_relative] with the address of the controller and the
    texts of three floats, in the directory of the controller and with the
    output not captured; likewise [move_absolute] and
    [./franka_move_to_absolute]. *)
Theorem motion_starts_at_most_one_process (P : platform) (self : nat)
        (dx dy dz : option value) (coordinates : value) (w : world) :
  (spawned (world_after (move_relative P self dx dy dz) w) = spawned w
   \/ exists o t,
        nth_error (heap w) self = Some o
        /\ spawned (world_after (move_relative P self dx dy dz) w)
           = (spawned w ++ [motion_invocation P "./franka_move_to_relative" o t])%list)
  /\ (spawned (world_after (move_absolute P self coordinates) w) = spawned w
      \/ exists o t,
           nth_error (heap w) self = Some o
           /\ spawned (world_after (move_absolute P self coordinates) w)
              = (spawned w ++ [motion_invocation P "./franka_move_to_absolute" o t])%list).
Proof.
  split.
  - destruct (result_of (float3 P (default (VFloat float_zero) dx)
                                (default (VFloat float_zero) dy)
                                (default (VFloat float_zero) dz)) w) as [t|e] eqn:Hf;
      [destruct (nth_error (heap w) self) as [o|] eqn:Ho|].
    + right. exists o, t. split; [reflexivity|].
      unfold world_after. rewrite (move_relative_started P self o dx dy dz t w Ho Hf).
      reflexivity.
    + left. apply move_relative_stops_early. intros; reflexivity || assumption.
    + left. apply move_relative_stops_early. intros t Ht. congruence.
  - destruct (move_absolute_reads_three P self coordinates w) as [[e He]|(x & y & z & Hxyz)].
    + left. unfold world_after. rewrite He. reflexivity.
    + unfold world_after. rewrite Hxyz. fold (world_after (move_absolute P self (VList [x; y; z])) w).
      destruct (result_of (float3 P x y z) w) as [t|e] eqn:Hf;
        [destruct (nth_error (heap w) self) as [o|] eqn:Ho|].
      * right. exists o, t. split; [reflexivity|].
        unfold world_after. rewrite (move_absolute_started P self o x y z t w Ho Hf).
        reflexivity.
      * left. apply move_absolute_stops_early. intros; assumption.
      * left. apply move_absolute_stops_early. intros t Ht. congruence.
Qed.

(** ** The query, its process and its report *)

Lemma get_joint_positions_world (P : platform) (self : nat) (o : FrankaControl) (w : world) :
  nth_error (heap w) self = Some o ->
  world_after (get_joint_positions P self) w
  = mkWorld (heap w) (stdout w ++ query_debug_lines o) (stdin w)
            (spawned w ++ [query_invocation o]).
Proof.
  intro Ho. destruct o as [ip dbg wd].
  unfold world_after, query_debug_lines, query_invocation, get_joint_positions,
    getattr_self, bind.
  destruct dbg; run_motion Ho;
    (destruct (host_popen P _ _ _) as [out|]; run_motion Ho;
     [unfold decode_utf8; destruct (Utf8.valid out);
      [unfold ret; rewrite parse_split_unbound|]|]);
    run_motion Ho; rewrite ?app_nil_r, <- ?app_assoc; reflexivity.
Qed.

(** X4. Every call of [get_joint_positions] on a controller starts the
    query executable once, as [./get_joint_positions] followed by the
    address, in the directory of the controller and with its output
    captured. With the debug flag set it first prints its report of five
    lines; it prints nothing else, and nothing at all without the flag. It
    reads no input. *)
Theorem query_starts_one_process (P : platform) (self : nat) (o : FrankaControl) (w : world) :
  nth_error (heap w) self = Some o ->
  spawned (world_after (get_joint_positions P self) w)
  = (spawned w ++ [mkInvocation ["./get_joint_positions"; ip_address o] (path o) true])%list
  /\ stdout (world_after (get_joint_positions P self) w)
     = (stdout w ++ query_debug_lines o)%list
  /\ stdin (world_after (get_joint_positions P self) w) = stdin w.
Proof.
  intro Ho. rewrite (get_joint_positions_world P self o w Ho). repeat split.
Qed.

(** X4 on the reference platform, for a controller made with the debug
    flag set. *)
Lemma query_starts_one_process_witness :
  spawned (world_after (get_joint_positions (mock_platform (Some eight_pose_lines) None) 0)
                       (world_after (FrankaControl_init
                                       (mock_platform (Some eight_pose_lines) None)
                                       None (Some true)) empty_world))
  = [mkInvocation ["./get_joint_positions"; "192.168.0.88"] "/home/franka/archive" true]
  /\ stdout (world_after (get_joint_positions (mock_platform (Some eight_pose_lines) None) 0)
                         (world_after (FrankaControl_init
                                         (mock_platform (Some eight_pose_lines) None)
                                         None (Some true)) empty_world))
     = [line ["Working directory: "; "/home/franka/archive"];
        line ["Program: "; "./get_joint_positions"];
        line ["IP Address of robot: "; "192.168.0.88"];
        line ["Command being called: "; "./get_joint_positions 192.168.0.88"];
        line ["Running FRANKA code..."]]
  /\ stdin (world_after (get_joint_positions (mock_platform (Some eight_pose_lines) None) 0)
                        (world_after (FrankaControl_init
                                        (mock_platform (Some eight_pose_lines) None)
                                        None (Some true)) empty_world))
     = [].
Proof.
  exact (query_starts_one_process
           (mock_platform (Some eight_pose_lines) None) 0
           (mkFrankaControl "192.168.0.88" true "/home/franka/archive")
           (world_after (FrankaControl_init (mock_platform (Some eight_pose_lines) None)
                                            None (Some true)) empty_world)
           eq_refl).
Defined.

(** X5. [get_position] does to the world what [get_joint_positions]
    does and nothing more: the conversion to an array and the three
    readings of row 7 print nothing, start nothing and read nothing. *)
Theorem get_position_adds_no_effect (P : platform) (self : nat) (w : world) :
  world_after (get_position P self) w = world_after (get_joint_positions P self) w.
Proof.
  unfold world_after, get_position, np_array, np_getitem2, lift, bind.
  destruct (get_joint_positions P self w) as [[rows|e] w1]; [|reflexivity].
  destruct (host_np_array P rows) as [joints|e]; [|reflexivity].
  destruct (host_np_getitem2 P joints 7 12) as [x|e]; [|reflexivity].
  destruct (host_np_getitem2 P joints 7 13) as [y|e]; [|reflexivity].
  destruct (host_np_getitem2 P joints 7 14) as [z|e]; reflexivity.
Qed.

(** X6. The constructor and the query fit together: a controller made
    with an address and a debug flag (or the defaults, for an argument left
    out) is added to the heap behind the controllers that were there, and
    its query is started with that very address, in the directory of the
    module. *)
Theorem constructed_address_is_queried (P : platform) (ip : option string)
        (debug_flag : option bool) (w : world) :
  heap (world_after (FrankaControl_init P ip debug_flag) w)
  = (heap w ++ [mkFrankaControl (default "192.168.0.88" ip) (default false debug_flag)
                                (module_dir P)])%list
  /\ spawned (world_after (self <- FrankaControl_init P ip debug_flag ;;
                           get_joint_positions P self) w)
     = (spawned w
        ++ [mkInvocation ["./get_joint_positions"; default "192.168.0.88" ip]
                         (module_dir P) true])%list.
Proof.
  split; [reflexivity|].
  assert (Ho : nth_error (heap (world_after (FrankaControl_init P ip debug_flag) w))
                         (List.length (heap w))
               = Some (mkFrankaControl (default "192.168.0.88" ip)
                                       (default false debug_flag) (module_dir P))).
  { unfold world_after, FrankaControl_init, alloc. simpl.
    rewrite nth_error_app2, Nat.sub_diag; [reflexivity|apply Nat.le_refl]. }
  apply (get_joint_positions_world P) in Ho.
  unfold world_after in *. unfold bind.
  change (FrankaControl_init P ip debug_flag w)
    with (Ok (List.length (heap w)), snd (FrankaControl_init P ip debug_flag w)).
  cbv iota beta. rewrite Ho. reflexivity.
Qed.

(** ** The questions of [test_motion] *)

Lemma asking_cons (prompt complaint s : string) (refused : list string) :
  asking prompt complaint (s :: refused)
  = (prompt :: line [complaint] :: asking prompt complaint refused)%list.
Proof. reflexivity. Qed.

(** The first question goes through the answers it refuses, one round
    each, and stops at the first it takes. *)
Lemma ask_testing_answered (refused : list string) :
  forall (rounds : nat) (t : string) (b : bool) (rest : list string)
         (h : list FrankaControl) (out : list string) (sp : list invocation),
    Forall (fun s => testing_answer s = None) refused ->
    testing_answer t = Some b ->
    (List.length refused < rounds)%nat ->
    ask_testing rounds (mkWorld h out (refused ++ t :: rest) sp)
    = (Ok b, mkWorld h (out ++ asking testing_prompt "Invalid response." refused) rest sp).
Proof.
  induction refused as [|s refused IH]; intros rounds t b rest h out sp Href Ht Hlen;
    (destruct rounds as [|rounds]; [simpl in Hlen; lia|]).
  - unfold testing_answer in Ht. simpl ask_testing. unfold bind, input. simpl.
    destruct ((t =? "") || (lower t =? "n")).
    + injection Ht as <-. reflexivity.
    + destruct (lower t =? "y"); [|discriminate]. injection Ht as <-. reflexivity.
  - inversion Href as [|? ? Hs Href']; subst.
    unfold testing_answer in Hs. simpl ask_testing. unfold bind, input. simpl.
    destruct ((s =? "") || (lower s =? "n")); [discriminate|].
    destruct (lower s =? "y"); [discriminate|].
    unfold print, write. simpl.
    rewrite (IH rounds t b rest); [|assumption|assumption|simpl in Hlen; lia].
    rewrite asking_cons. rewrite <- !app_assoc. reflexivity.
Qed.

(** When it refuses every line that is left, it ends with the
    [EOFError] of [input]. *)
Lemma ask_testing_unanswered (refused : list string) :
  forall (rounds : nat) (h : list FrankaControl) (out : list string) (sp : list invocation),
    Forall (fun s => testing_answer s = None) refused ->
    (List.length refused < rounds)%nat ->
    ask_testing rounds (mkWorld h out refused sp)
    = (Raise EOFError,
       mkWorld h (out ++ asking testing_prompt "Invalid response." refused) [] sp).
Proof.
  induction refused as [|s refused IH]; intros rounds h out sp Href Hlen;
    (destruct rounds as [|rounds]; [simpl in Hlen; lia|]).
  - reflexivity.
  - inversion Href as [|? ? Hs Href']; subst.
    unfold testing_answer in Hs. simpl ask_testing. unfold bind, input. simpl.
    destruct ((s =? "") || (lower s =? "n")); [discriminate|].
    destruct (lower s =? "y"); [discriminate|].
    unfold print, write. simpl.
    rewrite (IH rounds); [|assumption|simpl in Hlen; lia].
    rewrite asking_cons. rewrite <- !app_assoc. reflexivity.
Qed.

Lemma ask_direction_round (rounds : nat) (w : world) :
  ask_direction (S rounds) w
  = (direction <- input direction_prompt ;;
     if direction_answer direction then ret direction
     else (print ["Invalid input. Must be 0/1."] ;; ask_direction rounds)) w.
Proof.
  simpl ask_direction. unfold bind, direction_prompt.
  destruct (input _ w) as [[d|e] w']; [|reflexivity].
  unfold direction_answer. simpl existsb. rewrite orb_false_r. reflexivity.
Qed.

Lemma ask_direction_answered (refused : list string) :
  forall (rounds : nat) (d : string) (rest : list string)
         (h : list FrankaControl) (out : list string) (sp : list invocation),
    Forall (fun s => direction_answer s = false) refused ->
    direction_answer d = true ->
    (List.length refused < rounds)%nat ->
    ask_direction rounds (mkWorld h out (refused ++ d :: rest) sp)
    = (Ok d, mkWorld h (out ++ asking direction_prompt "Invalid input. Must be 0/1." refused)
                     rest sp).
Proof.
  induction refused as [|s refused IH]; intros rounds d rest h out sp Href Hd Hlen;
    (destruct rounds as [|rounds]; [simpl in Hlen; lia|]);
    rewrite ask_direction_round; unfold bind, input; cbn -[direction_answer ask_direction asking].
  - rewrite Hd. reflexivity.
  - inversion Href as [|? ? Hs Href']; subst. rewrite Hs.
    unfold print, write. cbn -[direction_answer ask_direction asking].
    rewrite (IH rounds d rest); [|assumption|assumption|simpl in Hlen; lia].
    rewrite asking_cons. rewrite <- !app_assoc. reflexivity.
Qed.

(** The bound on the rounds is never met: there is one round more than
    lines to read. *)
Lemma reading_ask_testing (refused : list string) (t : string) (b : bool)
      (rest : list string) (h : list FrankaControl) (out : list string)
      (sp : list invocation) :
  Forall (fun s => testing_answer s = None) refused ->
  testing_answer t = Some b ->
  reading ask_testing (mkWorld h out (refused ++ t :: rest) sp)
  = (Ok b, mkWorld h (out ++ asking testing_prompt "Invalid response." refused) rest sp).
Proof.
  intros Href Ht. unfold reading. cbn [stdin].
  apply ask_testing_answered; [assumption|assumption|].
  rewrite length_app. simpl. lia.
Qed.

Lemma reading_ask_direction (refused : list string) (d : string)
      (rest : list string) (h : list FrankaControl) (out : list string)
      (sp : list invocation) :
  Forall (fun s => direction_answer s = false) refused ->
  direction_answer d = true ->
  reading ask_direction (mkWorld h out (refused ++ d :: rest) sp)
  = (Ok d, mkWorld h (out ++ asking direction_prompt "Invalid input. Must be 0/1." refused)
                   rest sp).
Proof.
  intros Href Hd. unfold reading. cbn [stdin].
  apply ask_direction_answered; [assumption|assumption|].
  rewrite length_app. simpl. lia.
Qed.

Lemma direction_is_0_or_1 (d : string) :
  direction_answer d = true -> (d =? "0") = false -> (d =? "1") = true.
Proof. unfold direction_answer. intros Hd H0. rewrite H0 in Hd. exact Hd. Qed.

(** ** [test_motion] *)

(** X7. When the first question of [test_motion] takes none of the lines
    of the input, each refused line is answered with [Invalid response.]
    and the question put again, until the input is at its end and [input]
    raises [EOFError]: the loop has no other way out. Nothing has been
    started and no controller made. On an empty input the question is put
    once. *)
Theorem test_motion_input_runs_out (P : platform) (w : world) :
  Forall (fun s => testing_answer s = None) (stdin w) ->
  test_motion P w
  = (Raise EOFError,
     mkWorld (heap w)
             (stdout w ++ asking testing_prompt "Invalid response." (stdin w))
             [] (spawned w)).
Proof.
  intro Href. destruct w as [h out inp sp]. cbn [stdin heap stdout spawned] in *.
  unfold test_motion, bind, reading. cbn [stdin].
  rewrite ask_testing_unanswered; [reflexivity|assumption|lia].
Qed.

(** X7 on the input [maybe], [yes]: neither is an answer. *)
Lemma test_motion_input_runs_out_witness :
  test_motion (mock_platform None (Some 0%Z)) (mkWorld [] [] ["maybe"; "yes"] [])
  = (Raise EOFError,
     mkWorld []
             [testing_prompt; line ["Invalid response."];
              testing_prompt; line ["Invalid response."];
              testing_prompt]
             [] []).
Proof.
  apply (test_motion_input_runs_out (mock_platform None (Some 0%Z))
           (mkWorld [] [] ["maybe"; "yes"] [])).
  repeat constructor.
Defined.

(** X8. The dry run. When the first answer taken is empty, [n] or [N]
    and the second [0] or [1], [test_motion] starts no process and makes no
    controller: it prints the mode, then the deltas and the command it
    would run (with the delta 0.05 or -0.05 along x and the text [0], not
    [0.0], for the other two), and returns. The lines after the second
    answer are left unread. *)
Theorem test_motion_dry_run (P : platform) (w : world)
        (refused1 refused2 rest : list string) (t d : string) :
  Forall (fun s => testing_answer s = None) refused1 ->
  testing_answer t = Some false ->
  Forall (fun s => direction_answer s = false) refused2 ->
  direction_answer d = true ->
  stdin w = (refused1 ++ t :: refused2 ++ d :: rest)%list ->
  test_motion P w
  = (Ok tt,
     mkWorld (heap w)
             (stdout w
              ++ asking testing_prompt "Invalid response." refused1
              ++ [line ["Testing mode: "; "False"]]
              ++ asking direction_prompt "Invalid input. Must be 0/1." refused2
              ++ dry_run_lines d)
             rest (spawned w)).
Proof.
  intros Href1 Ht Href2 Hd Hin. destruct w as [h out inp sp].
  cbn [stdin heap stdout spawned] in *. subst inp.
  unfold test_motion, bind.
  rewrite (reading_ask_testing refused1 t false) by assumption.
  unfold print at 1, write. cbn [heap stdout stdin spawned str_].
  rewrite (reading_ask_direction refused2 d) by assumption.
  unfold dry_run_lines, dry_dx.
  destruct (d =? "0") eqn:H0; [|rewrite (direction_is_0_or_1 d Hd H0)];
    unfold print, write; cbn [heap stdout stdin spawned];
    rewrite <- !app_assoc; reflexivity.
Qed.

(** X8 on the input [x], [N], [2], [1], [left over]. *)
Lemma test_motion_dry_run_witness :
  test_motion (mock_platform None None) (mkWorld [] [] ["x"; "N"; "2"; "1"; "left over"] [])
  = (Ok tt,
     mkWorld []
             ([testing_prompt; line ["Invalid response."]; testing_prompt;
               line ["Testing mode: "; "False"];
               direction_prompt; line ["Invalid input. Must be 0/1."]; direction_prompt]
              ++ dry_run_lines "1")
             ["left over"] []).
Proof.
  apply (test_motion_dry_run (mock_platform None None)
           (mkWorld [] [] ["x"; "N"; "2"; "1"; "left over"] [])
           ["x"] ["2"] ["left over"] "N" "1");
    repeat constructor.
Defined.

(** X9. The live run. When the first answer taken is [y] or [Y] and the
    second [0] or [1], [test_motion] makes one controller, with the
    default address and the debug flag set, and moves it once: by 0.05
    along x for [0], by -0.05 for [1], by zero along y and z. The exit
    code of the executable is dropped: [test_motion] returns whatever the
    code, and only an executable that cannot be started ends it, with
    [OSError]. *)
Theorem test_motion_live_run (P : platform) (w : world)
        (refused1 refused2 rest : list string) (t d : string) :
  Forall (fun s => testing_answer s = None) refused1 ->
  testing_answer t = Some true ->
  Forall (fun s => direction_answer s = false) refused2 ->
  direction_answer d = true ->
  stdin w = (refused1 ++ t :: refused2 ++ d :: rest)%list ->
  test_motion P w
  = (match motion_answer P "./franka_move_to_relative" (test_controller P) (live_delta d) w with
     | Some _ => Ok tt
     | None => Raise OSError
     end,
     mkWorld (heap w ++ [test_controller P])
             (stdout w
              ++ asking testing_prompt "Invalid response." refused1
              ++ [line ["Testing mode: "; "True"]]
              ++ asking direction_prompt "Invalid input. Must be 0/1." refused2
              ++ debug_lines (test_controller P) "./franka_move_to_relative"
                             ["dx: "; "dy: "; "dz: "]
                             (motion_command P "./franka_move_to_relative"
                                             (test_controller P) (live_delta d))
              ++ match motion_answer P "./franka_move_to_relative" (test_controller P)
                                     (live_delta d) w with
                 | Some return_code =>
                     exit_lines (test_controller P) "./franka_move_to_relative" return_code
                 | None => []
                 end)
             rest
             (spawned w
              ++ [motion_invocation P "./franka_move_to_relative" (test_controller P)
                                    (live_delta d)])).
Proof.
  intros Href1 Ht Href2 Hd Hin. destruct w as [h out inp sp].
  cbn [stdin heap stdout spawned] in *. subst inp.
  unfold test_motion, bind.
  rewrite (reading_ask_testing refused1 t true) by assumption.
  unfold print at 1, write. cbn [heap stdout stdin spawned str_].
  rewrite (reading_ask_direction refused2 d) by assumption.
  unfold FrankaControl_init, alloc. cbn [heap stdout stdin spawned default].
  fold (test_controller P).
  assert (Ho : forall out2,
             nth_error (heap (mkWorld (h ++ [test_controller P]) out2 rest sp))
                       (List.length h) = Some (test_controller P)).
  { intro out2. cbn [heap].
    rewrite nth_error_app2, Nat.sub_diag; [reflexivity|apply Nat.le_refl]. }
  unfold live_delta.
  destruct (d =? "0") eqn:H0; [|rewrite (direction_is_0_or_1 d Hd H0)].
  - rewrite (move_relative_started P (List.length h) (test_controller P)
               (Some (VFloat float_0_05)) None None
               (float_0_05, float_zero, float_zero) _ (Ho _) eq_refl).
    unfold motion_world, motion_answer. cbn [heap stdout stdin spawned].
    destruct (host_call P _ _ _); unfold ret; rewrite <- !app_assoc; reflexivity.
  - rewrite (move_relative_started P (List.length h) (test_controller P)
               (Some (VFloat (SFopp float_0_05))) None None
               (SFopp float_0_05, float_zero, float_zero) _ (Ho _) eq_refl).
    unfold motion_world, motion_answer. cbn [heap stdout stdin spawned].
    destruct (host_call P _ _ _); unfold ret; rewrite <- !app_assoc; reflexivity.
Qed.

(** X9 on the input [Y], [1] with a motion executable that exits with
    code 1: the code is dropped and the arm was asked to move by -0.05. *)
Lemma test_motion_live_run_witness :
  result_of (test_motion (mock_platform None (Some 1%Z))) (mkWorld [] [] ["Y"; "1"] [])
  = Ok tt
  /\ spawned (world_after (test_motion (mock_platform None (Some 1%Z)))
                          (mkWorld [] [] ["Y"; "1"] []))
     = [mkInvocation ["./franka_move_to_relative"; "192.168.0.88"; "-0.05"; "0.0"; "0.0"]
                     "/home/franka/archive" false]
  /\ heap (world_after (test_motion (mock_platform None (Some 1%Z)))
                       (mkWorld [] [] ["Y"; "1"] []))
     = [mkFrankaControl "192.168.0.88" true "/home/franka/archive"].
Proof.
  unfold result_of, world_after.
  rewrite (test_motion_live_run (mock_platform None (Some 1%Z))
             (mkWorld [] [] ["Y"; "1"] []) [] [] [] "Y" "1");
    repeat constructor.
Defined.

(** ** The command line, all flags *)

(** X10. The flags are tried in the order motion, position, joint. With
    the motion flag the program is [test_motion], whatever the other two.
    Without it the program starts no process and reads no input: it stops
    at the missing method for the position flag (also when the joint flag
    is set), at the unbound name for the joint flag alone, and with no
    flag it returns after its hint. *)
Theorem main_dispatch (P : platform) (rounds : nat) (p j : bool) (w : world) :
  main P rounds (mkNamespace true p j) w = test_motion P w
  /\ result_of (main P rounds (mkNamespace false p j)) w
     = (if p then Raise (AttributeError "get_end_effector_pos")
        else if j then Raise (NameError "FrankaRos")
        else Ok tt)
  /\ spawned (world_after (main P rounds (mkNamespace false p j)) w) = spawned w
  /\ stdin (world_after (main P rounds (mkNamespace false p j)) w) = stdin w
  /\ stdout (world_after (main P rounds (mkNamespace false p j)) w)
     = (stdout w ++ if p || j then [] else [line ["Try: franka_control.py --help"]])%list.
Proof.
  split; [reflexivity|].
  destruct p, j; repeat split; simpl; rewrite ?app_nil_r; reflexivity.
Qed.

(** ** [move_absolute] on what is not a list *)

(** X11. [move_absolute] does not ask for a list: a str of three
    characters passes the length check and is taken apart by the indexing,
    so that the call goes on as with the list of its three characters. *)
Theorem move_absolute_takes_str (P : platform) (self : nat) (s a b c : string) (w : world) :
  Utf8.chars s = [a; b; c] ->
  move_absolute P self (VStr s) w
  = move_absolute P self (VList [VStr a; VStr b; VStr c]) w.
Proof.
  intro Hs. unfold move_absolute, bind, len, getitem, ret. rewrite Hs. reflexivity.
Qed.

(** X11 on the str ['123'], which moves the arm to 1.0, 2.0, 3.0. *)
Lemma move_absolute_takes_str_witness :
  spawned (world_after (move_absolute (mock_platform None (Some 0%Z)) 0 (VStr "123"))
                       (one_controller (mock_platform None (Some 0%Z))))
  = [mkInvocation ["./franka_move_to_absolute"; "192.168.0.88"; "1.0"; "2.0"; "3.0"]
                  "/home/franka/archive" false].
Proof.
  unfold world_after.
  rewrite (move_absolute_takes_str (mock_platform None (Some 0%Z)) 0 "123" "1" "2" "3"
             (one_controller (mock_platform None (Some 0%Z))) eq_refl).
  reflexivity.
Defined.

(** X12. Coordinates that have no length ([None], a bool, an int, a
    float, a controller) end [move_absolute] at [len] with [TypeError],
    which the method does not catch; nothing is printed or started. *)
Theorem move_absolute_needs_a_sequence (P : platform) (self : nat)
        (coordinates : value) (w : world) :
  has_no_len coordinates = true ->
  move_absolute P self coordinates w = (Raise TypeError, w).
Proof.
  intro Hno. destruct coordinates; try discriminate Hno; reflexivity.
Qed.

(** X12 on a single float in the place of the list. *)
Lemma move_absolute_needs_a_sequence_witness :
  move_absolute (mock_platform None (Some 0%Z)) 0 (VFloat float_0_05)
                (one_controller (mock_platform None (Some 0%Z)))
  = (Raise TypeError, one_controller (mock_platform None (Some 0%Z))).
Proof.
  apply (move_absolute_needs_a_sequence (mock_platform None (Some 0%Z)) 0
           (VFloat float_0_05)).
  reflexivity.
Defined.

(** ** The order of the conversions *)

Lemma float3_first_rejected (P : platform) (a b c : value) (e : exn) (w : world) :
  result_of (float_ P a) w = Raise e -> float3 P a b c w = (Raise e, w).
Proof.
  intro Ha. unfold float3, bind. rewrite float__run, Ha. reflexivity.
Qed.

(** X13. The arguments are converted from left to right and the first
    rejection decides: once [float] rejects the first argument, the other
    two are not looked at, so that the call ends the same whatever they
    are (a second argument that would raise [TypeError] on its own does not
    get to). *)
Theorem first_rejection_decides (P : platform) (self : nat) (a : value) (e : exn)
        (b c b' c' : option value) (y z y' z' : value) (w : world) :
  result_of (float_ P a) w = Raise e ->
  move_relative P self (Some a) b c w = move_relative P self (Some a) b' c' w
  /\ move_absolute P self (VList [a; y; z]) w = move_absolute P self (VList [a; y'; z']) w.
Proof.
  intro Ha. split.
  - unfold move_relative, try_except, bind. cbn [default].
    rewrite !(float3_first_rejected P a _ _ e w Ha). reflexivity.
  - unfold move_absolute, try_except, bind. simpl.
    rewrite !(float3_first_rejected P a _ _ e w Ha). reflexivity.
Qed.

(** X13 on ['abc'] followed by [None]: the [ValueError] of the first
    argument is caught and the call returns [None], although [None] as the
    only bad argument raises [TypeError]. *)
Lemma first_rejection_decides_witness :
  move_relative (mock_platform None (Some 0%Z)) 0 (Some (VStr "abc")) (Some VNone) None
                (one_controller (mock_platform None (Some 0%Z)))
  = move_relative (mock_platform None (Some 0%Z)) 0 (Some (VStr "abc")) None None
                  (one_controller (mock_platform None (Some 0%Z))).
Proof.
  exact (proj1 (first_rejection_decides
                  (mock_platform None (Some 0%Z)) 0 (VStr "abc")
                  (ValueError "could not convert string to float")
                  (Some VNone) None None None VNone VNone VNone VNone
                  (one_controller (mock_platform None (Some 0%Z))) eq_refl)).
Defined.
